(** * Building Maintenance Request System: request lifecycle, worker queue
      and manager dashboard

    A shallow embedding of the route handlers of [main.py] over the
    [requests] table of [database.py].  The table is a list of rows in
    storage order; a handler takes the table and returns its outcome
    together with the table after [db.commit()]. *)

From Stdlib Require Import Floats.
From Stdlib Require Import ZArith List String Bool Lia Permutation Sorted.
Import ListNotations.

Open Scope string_scope.
Open Scope Z_scope.

(** ** Data model ([database.py]) *)

(** A naive [datetime], counted in microseconds since [datetime.min]. *)
Definition datetime := Z.

Module User.
Record t := mk
  { id : Z;
    username : string;
    password_hash : string;
    role : string }.
End User.

Module MaintenanceRequest.
Record t := mk
  { id : Z;
    tenant_id : Z;
    unit_number : string;
    category : string;
    urgency : string;
    description : string;
    status : string;
    created_at : option datetime;
    resolved_at : option datetime;
    assigned_worker_id : option Z }.

(** Attribute assignments [req.status = ...], [req.assigned_worker_id = ...]
    and [req.resolved_at = ...]. *)
Definition set_status (r : t) (s : string) : t :=
  mk (id r) (tenant_id r) (unit_number r) (category r) (urgency r)
     (description r) s (created_at r) (resolved_at r) (assigned_worker_id r).

Definition set_assigned_worker_id (r : t) (w : option Z) : t :=
  mk (id r) (tenant_id r) (unit_number r) (category r) (urgency r)
     (description r) (status r) (created_at r) (resolved_at r) w.

Definition set_resolved_at (r : t) (d : option datetime) : t :=
  mk (id r) (tenant_id r) (unit_number r) (category r) (urgency r)
     (description r) (status r) (created_at r) d (assigned_worker_id r).
End MaintenanceRequest.

Module MR := MaintenanceRequest.

(** The [requests] table, rows in storage order. *)
Definition Db := list MR.t.

(** ** Outcomes of a handler *)

(** A Python number: an [int] or a binary64 [float]. *)
Inductive Number :=
| PyInt (n : Z)
| PyFloat (x : float).

(** What a handler hands back to the framework: a redirect carrying its
    HTTP status code ([RedirectResponse] defaults to 307) or a rendered
    template with the values placed in its context. *)
Inductive Context :=
| SubmitContext (user : User.t) (success : bool)
| QueueContext (user : User.t) (requests : list MR.t)
| DashboardContext (user : User.t) (open_requests : Z)
    (avg_resolution_time : Number) (emergency_count : Z)
    (completed_count : Z) (recent_requests : list MR.t).

Inductive Response :=
| RedirectResponse (url : string) (status_code : Z)
| TemplateResponse (name : string) (context : Context).

(** A call either returns a value or raises
    [HTTPException(status_code, detail)]. *)
Inductive Outcome (A : Type) :=
| Ok (a : A)
| HTTPException (status_code : Z) (detail : string).
Arguments Ok {A} a.
Arguments HTTPException {A} status_code detail.

(** The error kinds of the design and the HTTP status each is surfaced
    as. *)
Inductive ErrorKind :=
| NotFound
| Forbidden
| ValidationError
| InvalidTransition.

Definition kind_of_status (code : Z) : option ErrorKind :=
  if code =? 404 then Some NotFound
  else if code =? 403 then Some Forbidden
  else if code =? 409 then Some InvalidTransition
  else if (code =? 422) || (code =? 400) then Some ValidationError
  else None.

Definition fails_with {A : Type} (k : ErrorKind) (o : Outcome A) : Prop :=
  match o with
  | Ok _ => False
  | HTTPException code _ => kind_of_status code = Some k
  end.

(** ** Helper functions ([main.py]) *)

(** [require_role(role)]: [not user or user.role != role] raises 403. *)
Definition require_role (role : string) (user : option User.t) : Outcome User.t :=
  match user with
  | None => HTTPException 403 "Forbidden"
  | Some u =>
      if negb (User.role u =? role)%string then HTTPException 403 "Forbidden"
      else Ok u
  end.

(** [db.query(MaintenanceRequest).filter(MaintenanceRequest.id == req_id).first()] *)
Definition first_by_id (req_id : Z) (db : Db) : option MR.t :=
  find (fun r => MR.id r =? req_id) db.

(** [db.commit()] after attribute assignments on a loaded row: the row the
    object was loaded from (the first one carrying its primary key) is
    written back. *)
Fixpoint commit (req : MR.t) (db : Db) : Db :=
  match db with
  | [] => []
  | r :: rest =>
      if MR.id r =? MR.id req then req :: rest else r :: commit req rest
  end.

(** The primary key given to an inserted row. *)
Definition next_id (db : Db) : Z :=
  1 + fold_right Z.max 0 (map MR.id db).

(** [db.add(new_req); db.commit()] *)
Definition add (req : MR.t) (db : Db) : Db := (db ++ [req])%list.

(** [list.sort(key=...)] and the ordered queries: a stable sort, written
    as insertion from the right with a non-strict comparison.  A sorted,
    stable rearrangement of a list is unique, so the list obtained is the
    one any stable sort returns. *)
Section StableSort.
Context {A : Type} (leb : A -> A -> bool).

Fixpoint insert (x : A) (l : list A) : list A :=
  match l with
  | [] => [x]
  | y :: t => if leb x y then x :: y :: t else y :: insert x t
  end.

Fixpoint sort (l : list A) : list A :=
  match l with
  | [] => []
  | x :: t => insert x (sort t)
  end.
End StableSort.

(** ** Tenant routes *)

Definition categories : list string := ["Plumbing"; "Electrical"; "HVAC"; "General"].
Definition urgencies : list string := ["Low"; "Medium"; "High"; "Emergency"].
Definition statuses : list string := ["Pending"; "In Progress"; "Completed"].

Definition submit_request
    (unit_number category urgency description : string)
    (user : option User.t) (now : datetime) (db : Db) : Outcome Response * Db :=
  match user with
  | None => (Ok (RedirectResponse "/" 307), db)
  | Some u =>
      if negb (User.role u =? "tenant")%string
      then (Ok (RedirectResponse "/" 307), db)
      else
        let new_req :=
          MR.mk (next_id db) (User.id u) unit_number category urgency
                description "Pending" (Some now) None None in
        (Ok (TemplateResponse "submit_request.html" (SubmitContext u true)),
         add new_req db)
  end.

(** [= Form(...)]: the four values are required form fields.  A request in
    which one of them is missing or empty is answered by the framework
    with 422 (a validation error whose detail names the field), and the
    handler is not called. *)
Definition form_given (values : list string) : bool :=
  forallb (fun v => negb (v =? "")%string) values.

(** [POST /tenant/submit]: the form is checked, then the handler runs. *)
Definition post_tenant_submit
    (unit_number category urgency description : string)
    (user : option User.t) (now : datetime) (db : Db) : Outcome Response * Db :=
  if form_given [unit_number; category; urgency; description]
  then submit_request unit_number category urgency description user now db
  else (HTTPException 422 "Field required", db).

(** ** Worker routes *)

(** The integers SQLite takes as a query parameter.  A [req_id] outside
    this range is no identifier of any row, and the lookup of
    [update_request] is only described for identifiers inside it. *)
Definition sqlite_integer (k : Z) : Prop := - 2 ^ 63 <= k < 2 ^ 63.

(** [urgency_order.get(x.urgency, 4)] *)
Definition urgency_order (u : string) : Z :=
  if (u =? "Emergency")%string then 0
  else if (u =? "High")%string then 1
  else if (u =? "Medium")%string then 2
  else if (u =? "Low")%string then 3
  else 4.

(** [status != "Completed"], in the query and in the comprehensions alike:
    a status is never NULL, it is set at insertion and assigned from a form
    string afterwards. *)
Definition is_open (r : MR.t) : bool :=
  negb (MR.status r =? "Completed")%string.

Definition by_urgency (a b : MR.t) : bool :=
  urgency_order (MR.urgency a) <=? urgency_order (MR.urgency b).

Definition queue_requests (db : Db) : list MR.t :=
  sort by_urgency (filter is_open db).

Definition work_queue (user : option User.t) (db : Db) : Outcome Response * Db :=
  match user with
  | None => (Ok (RedirectResponse "/" 307), db)
  | Some u =>
      if negb (User.role u =? "worker")%string
      then (Ok (RedirectResponse "/" 307), db)
      else
        (Ok (TemplateResponse "work_queue.html"
               (QueueContext u (queue_requests db))), db)
  end.

Definition update_request
    (req_id : Z) (status : string)
    (user : option User.t) (now : datetime) (db : Db) : Outcome Response * Db :=
  match user with
  | None => (Ok (RedirectResponse "/" 307), db)
  | Some u =>
      if negb (User.role u =? "worker")%string
      then (Ok (RedirectResponse "/" 307), db)
      else
        match first_by_id req_id db with
        | Some req =>
            let req := MR.set_status req status in
            let req := MR.set_assigned_worker_id req (Some (User.id u)) in
            let req :=
              if (status =? "Completed")%string
              then MR.set_resolved_at req (Some now) else req in
            (Ok (RedirectResponse "/worker/queue" 303), commit req db)
        | None => (Ok (RedirectResponse "/worker/queue" 303), db)
        end
  end.

(** ** Manager routes *)

(** Python numbers.  [a / b] on two [int]s is the quotient correctly
    rounded to binary64 (the divisors met here are the constants [10 ** 6]
    and [10 ** ndigits], never 0); an [int] meeting a [float] is first
    converted, also correctly rounded. *)
Definition int_truediv (a b : Z) : float :=
  match a, b with
  | Zpos pa, Zpos pb =>
      SF2Prim (SFdiv prec emax (S754_finite false pa 0) (S754_finite false pb 0))
  | Zneg pa, Zpos pb =>
      SF2Prim (SFdiv prec emax (S754_finite true pa 0) (S754_finite false pb 0))
  | Zpos pa, Zneg pb =>
      SF2Prim (SFdiv prec emax (S754_finite false pa 0) (S754_finite true pb 0))
  | Zneg pa, Zneg pb =>
      SF2Prim (SFdiv prec emax (S754_finite true pa 0) (S754_finite true pb 0))
  | Z0, Zpos _ => zero
  | Z0, Zneg _ => neg_zero
  | _, Z0 => nan
  end.

Definition float_of_int (n : Z) : float :=
  SF2Prim (binary_normalize prec emax n 0 false).

(** The integer nearest to [n / d], a tie going to the even one
    ([0 <= n], [0 < d]). *)
Definition round_half_even (n d : Z) : Z :=
  let q := n / d in
  match 2 * (n mod d) ?= d with
  | Lt => q
  | Gt => q + 1
  | Eq => if Z.even q then q else q + 1
  end.

(** The number of [10 ^ -ndigits] steps that [round] settles on for a
    finite float of magnitude [m * 2 ^ e]. *)
Definition round_steps (m : positive) (e : Z) (ndigits : Z) : Z :=
  if 0 <=? e then Zpos m * 2 ^ e * 10 ^ ndigits
  else round_half_even (Zpos m * 10 ^ ndigits) (2 ^ (- e)).

(** [round(x, ndigits)] on a float, [0 <= ndigits]: the exact binary value
    is written with [ndigits] decimals, correctly rounded with ties to
    even, and that decimal is read back as the nearest float; infinities
    and NaN round to themselves. *)
Definition round (x : float) (ndigits : Z) : float :=
  match Prim2SF x with
  | S754_finite s m e =>
      let y := int_truediv (round_steps m e ndigits) (10 ^ ndigits) in
      if s then (- y)%float else y
  | _ => x
  end.

Definition len {A : Type} (l : list A) : Z := Z.of_nat (List.length l).

Definition is_completed (r : MR.t) : bool := (MR.status r =? "Completed")%string.

Definition is_emergency (r : MR.t) : bool := (MR.urgency r =? "Emergency")%string.

(** [(r.resolved_at - r.created_at).total_seconds() / 3600] *)
Definition resolution_hours (resolved created : datetime) : float :=
  (int_truediv (resolved - created) 1000000 / 3600)%float.

(** The loop over [completed_requests], carrying [total_time] and
    [count_time]. *)
Fixpoint accumulate (rs : list MR.t) (total_time : float) (count_time : Z)
  : float * Z :=
  match rs with
  | [] => (total_time, count_time)
  | r :: rest =>
      match MR.resolved_at r, MR.created_at r with
      | Some resolved, Some created =>
          accumulate rest (total_time + resolution_hours resolved created)%float
                     (count_time + 1)
      | _, _ => accumulate rest total_time count_time
      end
  end.

Definition avg_resolution_time (all_requests : Db) : Number :=
  let completed_requests := filter is_completed all_requests in
  let '(total_time, count_time) := accumulate completed_requests zero 0 in
  if count_time >? 0
  then PyFloat (round (total_time / float_of_int count_time)%float 1)
  else PyInt 0.

Definition open_requests (all_requests : Db) : Z :=
  len (filter is_open all_requests).

Definition completed_count (all_requests : Db) : Z :=
  len (filter is_completed all_requests).

Definition emergency_count (all_requests : Db) : Z :=
  len (filter (fun r => is_emergency r && is_open r) all_requests).

(** [order_by(MaintenanceRequest.created_at.desc())]: newest first, rows
    without a timestamp last, rows of one timestamp in table order. *)
Definition by_created_desc (a b : MR.t) : bool :=
  match MR.created_at b, MR.created_at a with
  | None, _ => true
  | Some _, None => false
  | Some tb, Some ta => tb <=? ta
  end.

Definition recent_requests (db : Db) : list MR.t :=
  firstn 10 (sort by_created_desc db).

Definition dashboard (user : option User.t) (db : Db) : Outcome Response * Db :=
  match user with
  | None => (Ok (RedirectResponse "/" 307), db)
  | Some u =>
      if negb (User.role u =? "manager")%string
      then (Ok (RedirectResponse "/" 307), db)
      else
        (Ok (TemplateResponse "dashboard.html"
               (DashboardContext u (open_requests db) (avg_resolution_time db)
                  (emergency_count db) (completed_count db)
                  (recent_requests db))), db)
  end.

(** ** Properties stated by the design, and sample data *)

(** [resolved_at] is set exactly on completed requests. *)
Definition resolved_iff_completed (r : MR.t) : Prop :=
  MR.resolved_at r <> None <-> MR.status r = "Completed".

(** The row a worker's update leaves behind. *)
Definition updated (req : MR.t) (status : string) (worker_id : Z) (now : datetime)
  : MR.t :=
  MR.mk (MR.id req) (MR.tenant_id req) (MR.unit_number req) (MR.category req)
        (MR.urgency req) (MR.description req) status (MR.created_at req)
        (if (status =? "Completed")%string then Some now else MR.resolved_at req)
        (Some worker_id).

(** The design's reading of [resolved_at] after an update: stamped once,
    on the first move to Completed. *)
Definition resolved_at_set_once (req : MR.t) (status : string) (now : datetime)
  : option datetime :=
  match MR.resolved_at req with
  | None => if (status =? "Completed")%string then Some now else None
  | Some t => Some t
  end.

(** The transitions the design refuses. *)
Definition refused_transition (current new : string) : bool :=
  negb (existsb (String.eqb new) statuses)
  || (current =? "Completed")%string
  || ((new =? "Pending")%string && negb (current =? "Pending")%string).

(** The submissions the design refuses. *)
Definition refused_submission
    (unit_number category urgency description : string) : bool :=
  (unit_number =? "")%string || (category =? "")%string
  || (urgency =? "")%string || (description =? "")%string
  || negb (existsb (String.eqb category) categories)
  || negb (existsb (String.eqb urgency) urgencies).

Definition not_worker (user : option User.t) : Prop :=
  match user with
  | None => True
  | Some u => User.role u <> "worker"
  end.

Definition alice : User.t := User.mk 1 "tenant" "$2b$12$t" "tenant".
Definition bob : User.t := User.mk 2 "worker" "$2b$12$w" "worker".
Definition carol : User.t := User.mk 3 "manager" "$2b$12$m" "manager".

Definition leaking_sink : MR.t :=
  MR.mk 1 1 "101" "Plumbing" "High" "Issue with sink in unit." "Pending"
        (Some 1000) None None.

Definition fixed_light : MR.t :=
  MR.mk 2 1 "102" "Electrical" "Low" "Issue with light in unit." "Completed"
        (Some 1000) (Some 5000) (Some 2).

Definition broken_ac : MR.t :=
  MR.mk 3 1 "103" "HVAC" "Emergency" "Issue with ac in unit." "In Progress"
        (Some 2000) None (Some 2).

Definition sample_db : Db := [leaking_sink; fixed_light; broken_ac].

(** Counting the rows that satisfy a condition. *)
Fixpoint count_if (p : MR.t -> bool) (l : list MR.t) : Z :=
  match l with
  | [] => 0
  | r :: rest => (if p r then 1 else 0) + count_if p rest
  end.

(** The rows of a given urgency rank, in the order they come. *)
Definition of_rank (k : Z) (l : list MR.t) : list MR.t :=
  filter (fun r => urgency_order (MR.urgency r) =? k) l.

(** The requests the average runs over: completed, both timestamps set. *)
Definition timed (r : MR.t) : bool :=
  match MR.resolved_at r, MR.created_at r with
  | Some _, Some _ => true
  | _, _ => false
  end.

Definition resolved_requests (db : Db) : list MR.t :=
  filter (fun r => is_completed r && timed r) db.

(** Resolution time of a request, in microseconds and, as the handler
    computes it, in hours. *)
Definition elapsed (r : MR.t) : Z :=
  match MR.resolved_at r, MR.created_at r with
  | Some resolved, Some created => resolved - created
  | _, _ => 0
  end.

Definition hours (r : MR.t) : float :=
  match MR.resolved_at r, MR.created_at r with
  | Some resolved, Some created => resolution_hours resolved created
  | _, _ => zero
  end.

Definition float_sum (xs : list float) : float := fold_left PrimFloat.add xs zero.

(** The design's average: the exact mean of the resolution times in hours,
    in tenths, a half rounded up: [floor (10 * mean + 1/2)], with
    [mean = total / (n * 3600 * 10^6)]. *)
Definition mean_tenths_half_up (rs : list MR.t) : Z :=
  let total := fold_right Z.add 0 (map elapsed rs) in
  let unit := len rs * 3600000000 in
  (20 * total + unit) / (2 * unit).

Definition avg_half_up (db : Db) : Number :=
  match resolved_requests db with
  | [] => PyInt 0
  | rs => PyFloat (int_truediv (mean_tenths_half_up rs) 10)
  end.

(** [k] is the integer nearest to [n / d], the even one at a tie. *)
Definition nearest_even (n d k : Z) : Prop :=
  2 * Z.abs (n - k * d) <= d
  /\ (2 * Z.abs (n - k * d) = d -> Z.even k = true).

(** [10 ^ ndigits * m * 2 ^ e] as a fraction. *)
Definition scaled (m : positive) (e ndigits : Z) : Z * Z :=
  if 0 <=? e then (Zpos m * 2 ^ e * 10 ^ ndigits, 1)
  else (Zpos m * 10 ^ ndigits, 2 ^ (- e)).

Definition with_sign (s : bool) (y : float) : float :=
  if s then (- y)%float else y.

(** A request completed a quarter of an hour after it was made. *)
Definition quick_fix : MR.t :=
  MR.mk 1 1 "105" "General" "Medium" "Issue with door in unit." "Completed"
        (Some 0) (Some 900000000) (Some 2).

(** A request completed a whole number of hours after it was made, as the
    seeding creates them. *)
Definition fixed_after (i hours : Z) : MR.t :=
  MR.mk i 1 "107" "General" "Low" "Issue with door in unit." "Completed"
        (Some 0) (Some (hours * 3600000000)) (Some 2).

Definition four_fixes : Db :=
  [fixed_after 1 1; fixed_after 2 1; fixed_after 3 1; fixed_after 4 2].

(** Requests completed after one, two and three hours. *)
Definition three_fixes : Db :=
  [ MR.mk 1 1 "101" "General" "Low" "Issue with door in unit." "Completed"
          (Some 0) (Some 3600000000) (Some 2);
    MR.mk 2 1 "102" "HVAC" "High" "Issue with ac in unit." "Completed"
          (Some 0) (Some 7200000000) (Some 2);
    MR.mk 3 1 "103" "Plumbing" "Low" "Issue with sink in unit." "Completed"
          (Some 0) (Some 10800000000) (Some 2) ].

(** The queue ordering of the design's example: urgencies Low, Emergency,
    Medium, High, Emergency, identifiers 1 to 5. *)
Definition with_urgency (i : Z) (u : string) : MR.t :=
  MR.mk i 1 "106" "General" u "Issue with light in unit." "Pending"
        (Some 0) None None.

Definition five_open : Db :=
  [ with_urgency 1 "Low"; with_urgency 2 "Emergency"; with_urgency 3 "Medium";
    with_urgency 4 "High"; with_urgency 5 "Emergency" ].

(** ** Sessions, the index and the tenant's pages *)

(** The [users] table, rows in storage order. *)
Definition Users := list User.t.

(** [request.session]: the only key the application ever stores is
    ["user_id"]. *)
Definition Session := option Z.

(** The replies of the session routes and of the tenant's pages. *)
Inductive Page :=
| LoginForm (error : option string)
| SubmitForm (user : User.t)
| MyRequests (user : User.t) (requests : list MR.t).

Inductive Reply :=
| Redirect (url : string) (status_code : Z)
| Render (name : string) (page : Page).

(** [get_current_user]: [not user_id] holds for a missing key and for 0. *)
Definition get_current_user (session : Session) (users : Users) : option User.t :=
  match session with
  | None => None
  | Some user_id =>
      if user_id =? 0 then None
      else find (fun u => User.id u =? user_id) users
  end.

Definition index (user : option User.t) : Reply :=
  match user with
  | None => Redirect "/login" 307
  | Some u =>
      if (User.role u =? "tenant")%string then Redirect "/tenant/requests" 307
      else if (User.role u =? "worker")%string then Redirect "/worker/queue" 307
      else if (User.role u =? "manager")%string
           then Redirect "/manager/dashboard" 307
      else Redirect "/logout" 307
  end.

Definition login_page : Reply := Render "login.html" (LoginForm None).

Section Login.
(** [bcrypt.checkpw], on the password and a stored hash. *)
Variable checkpw : string -> string -> bool.

Definition login (username password : string) (session : Session) (users : Users)
  : Reply * Session :=
  match find (fun u => (User.username u =? username)%string) users with
  | None => (Render "login.html" (LoginForm (Some "Invalid credentials")), session)
  | Some user =>
      if negb (checkpw password (User.password_hash user))
      then (Render "login.html" (LoginForm (Some "Invalid credentials")), session)
      else (Redirect "/" 303, Some (User.id user))
  end.
End Login.

(** [request.session.clear()] *)
Definition logout (session : Session) : Reply * Session :=
  (Redirect "/login" 307, None).

Definition submit_request_page (user : option User.t) : Reply :=
  match user with
  | None => Redirect "/" 307
  | Some u =>
      if negb (User.role u =? "tenant")%string then Redirect "/" 307
      else Render "submit_request.html" (SubmitForm u)
  end.

(** [filter(MaintenanceRequest.tenant_id == user.id)
     .order_by(MaintenanceRequest.created_at.desc()).all()] *)
Definition requests_of (tenant_id : Z) (db : Db) : list MR.t :=
  sort by_created_desc (filter (fun r => MR.tenant_id r =? tenant_id) db).

Definition my_requests (user : option User.t) (db : Db) : Reply * Db :=
  match user with
  | None => (Redirect "/" 307, db)
  | Some u =>
      if negb (User.role u =? "tenant")%string then (Redirect "/" 307, db)
      else (Render "my_requests.html" (MyRequests u (requests_of (User.id u) db)),
            db)
  end.

(** A row is no older than another: a missing timestamp is oldest. *)
Definition not_older (a b : MR.t) : Prop :=
  match MR.created_at b, MR.created_at a with
  | None, _ => True
  | Some _, None => False
  | Some tb, Some ta => tb <= ta
  end.

(** Primary keys are unique. *)
Definition unique_ids (db : Db) : Prop := NoDup (map MR.id db).

Definition unique_user_ids (users : Users) : Prop :=
  NoDup (map User.id users) /\ ~ In 0 (map User.id users).

Definition sample_users : Users := [alice; bob; carol].

(** ** Startup and seeding *)

(** Both tables of the database. *)
Record Database := mkdb
  { users : Users;
    requests : Db }.

Definition users_data : list (string * string * string) :=
  [ ("tenant", "password", "tenant");
    ("worker", "password", "worker");
    ("manager", "password", "manager") ].

(** [[f"10{i}" for i in range(1, 9)]] *)
Definition units : list string :=
  ["101"; "102"; "103"; "104"; "105"; "106"; "107"; "108"].

Definition items : list string := ["sink"; "light"; "ac"; "door"].

(** What one turn of the seeding loop draws: the clock, the two
    [random.randint] values and the index each [random.choice] picks. *)
Record Draw := mkdraw
  { utcnow : datetime;
    randint_days : Z;
    status_choice : nat;
    randint_hours : Z;
    unit_choice : nat;
    category_choice : nat;
    urgency_choice : nat;
    item_choice : nat }.

(** [random.choice(seq)] picking index [i]. *)
Definition choice (seq : list string) (i : nat) : string := nth i seq "".

(** The ranges [random.randint] and [random.choice] draw from. *)
Definition in_range (d : Draw) : Prop :=
  0 <= randint_days d <= 30 /\ 1 <= randint_hours d <= 48
  /\ (status_choice d < List.length statuses)%nat
  /\ (unit_choice d < List.length units)%nat
  /\ (category_choice d < List.length categories)%nat
  /\ (urgency_choice d < List.length urgencies)%nat
  /\ (item_choice d < List.length items)%nat.

Definition next_user_id (us : Users) : Z :=
  1 + fold_right Z.max 0 (map User.id us).

(** [users[role]]: the dictionary filled while the users are created. *)
Definition user_of_role (role : string) (created : Users) : option User.t :=
  find (fun u => (User.role u =? role)%string) (rev created).

Section Seeding.
(** [bcrypt.hashpw] and the salt [bcrypt.gensalt()] returns on its [i]-th
    call; the draws of the [i]-th turn of the request loop. *)
Variable hashpw : string -> string -> string.
Variable gensalt : nat -> string.
Variable draw : nat -> Draw.

Fixpoint seed_users (data : list (string * string * string)) (i : nat)
    (us : Users) : Users :=
  match data with
  | [] => us
  | (username, password, role) :: rest =>
      let hashed := hashpw password (gensalt i) in
      let user := User.mk (next_user_id us) username hashed role in
      seed_users rest (S i) (us ++ [user])%list
  end.

Definition seed_request (tenant worker : User.t) (new_id : Z) (d : Draw) : MR.t :=
  let created_at := utcnow d - randint_days d * 86400000000 in
  let status_val := choice statuses (status_choice d) in
  let resolved_at :=
    if (status_val =? "Completed")%string
    then Some (created_at + randint_hours d * 3600000000) else None in
  MR.mk new_id (User.id tenant) (choice units (unit_choice d))
        (choice categories (category_choice d))
        (choice urgencies (urgency_choice d))
        ("Issue with " ++ choice items (item_choice d) ++ " in unit.")
        status_val (Some created_at) resolved_at
        (if negb (status_val =? "Pending")%string
         then Some (User.id worker) else None).

Fixpoint seed_requests (tenant worker : User.t) (turns : list nat) (db : Db) : Db :=
  match turns with
  | [] => db
  | i :: rest =>
      seed_requests tenant worker rest
        (add (seed_request tenant worker (next_id db) (draw i)) db)
  end.

Definition startup_event (d : Database) : Database :=
  match users d with
  | _ :: _ => d
  | [] =>
      let created := seed_users users_data 0 [] in
      match user_of_role "tenant" created, user_of_role "worker" created with
      | Some tenant, Some worker =>
          mkdb created (seed_requests tenant worker (seq 0 12) (requests d))
      | _, _ => mkdb created (requests d)
      end
  end.
End Seeding.

(** The data model's conditions on a row. *)
Definition worker_iff_taken (r : MR.t) : Prop :=
  MR.assigned_worker_id r = None <-> MR.status r = "Pending".

Definition resolved_after_created (r : MR.t) : Prop :=
  match MR.created_at r, MR.resolved_at r with
  | Some created, Some resolved => created < resolved
  | _, _ => True
  end.

Definition well_formed (us : Users) (r : MR.t) : Prop :=
  In (MR.status r) statuses
  /\ In (MR.category r) categories
  /\ In (MR.urgency r) urgencies
  /\ resolved_iff_completed r
  /\ worker_iff_taken r
  /\ resolved_after_created r
  /\ (exists t, In t us /\ User.id t = MR.tenant_id r /\ User.role t = "tenant")
  /\ (forall w, MR.assigned_worker_id r = Some w ->
       exists u, In u us /\ User.id u = w /\ User.role u = "worker").

(** Sample draws: the clock advancing, the choices cycling. *)
Definition sample_draw (i : nat) : Draw :=
  mkdraw (3000000000000 + Z.of_nat i) (Z.of_nat (i mod 31)) (i mod 3)
         (1 + Z.of_nat (i mod 48)) (i mod 8) (i mod 4) (i mod 4) (i mod 4).

Definition sample_hashpw (password salt : string) : string := salt ++ password.

Definition sample_gensalt (i : nat) : string :=
  match i with
  | O => "$2b$12$a"
  | S O => "$2b$12$b"
  | _ => "$2b$12$c"
  end.

Definition sample_checkpw (password hashed : string) : bool :=
  existsb (fun i => (hashed =? sample_hashpw password (sample_gensalt i))%string)
          [0%nat; 1%nat; 2%nat].

(** The database a first start makes of an empty one, with the sample
    draws. *)
Definition seeded : Database :=
  startup_event sample_hashpw sample_gensalt sample_draw (mkdb [] []).

(** A database already in use. *)
Definition sample_db_users : Database := mkdb sample_users sample_db.

(** ** The worker's update *)

Lemma first_by_id_id (k : Z) (db : Db) (r : MR.t) :
  first_by_id k db = Some r -> MR.id r = k.
Proof.
  unfold first_by_id. intros H.
  apply find_some in H. destruct H as [_ H].
  now apply Z.eqb_eq in H.
Qed.

Lemma first_by_id_commit (k : Z) (db : Db) (r r' : MR.t) :
  first_by_id k db = Some r -> MR.id r' = k ->
  first_by_id k (commit r' db) = Some r'.
Proof.
  unfold first_by_id. intros Hf Hid. subst k.
  induction db as [|x db IH]; simpl in *; [discriminate|].
  destruct (MR.id x =? MR.id r') eqn:E; simpl.
  - now rewrite Z.eqb_refl.
  - rewrite E. now apply IH.
Qed.

Lemma first_by_id_commit_other (k : Z) (db : Db) (r' : MR.t) :
  k <> MR.id r' -> first_by_id k (commit r' db) = first_by_id k db.
Proof.
  unfold first_by_id. intros Hk.
  induction db as [|x db IH]; simpl; [reflexivity|].
  destruct (MR.id x =? MR.id r') eqn:E; simpl.
  - apply Z.eqb_eq in E.
    assert ((MR.id r' =? k) = false) as -> by (apply Z.eqb_neq; congruence).
    assert ((MR.id x =? k) = false) as -> by (apply Z.eqb_neq; congruence).
    reflexivity.
  - now rewrite IH.
Qed.

Lemma length_commit (r' : MR.t) (db : Db) :
  List.length (commit r' db) = List.length db.
Proof.
  induction db as [|x db IH]; simpl; [reflexivity|].
  destruct (MR.id x =? MR.id r'); simpl; congruence.
Qed.

Lemma update_request_by_worker
    (k : Z) (st : string) (u : User.t) (now : datetime) (db : Db) (r : MR.t) :
  User.role u = "worker" -> first_by_id k db = Some r ->
  update_request k st (Some u) now db
  = (Ok (RedirectResponse "/worker/queue" 303),
     commit (updated r st (User.id u) now) db).
Proof.
  intros Hrole Hfind. unfold update_request.
  rewrite Hrole, Hfind. simpl.
  unfold updated. now destruct (st =? "Completed")%string.
Qed.

Lemma update_request_row_after
    (k : Z) (st : string) (u : User.t) (now : datetime) (db : Db) (r : MR.t) :
  User.role u = "worker" -> first_by_id k db = Some r ->
  first_by_id k (snd (update_request k st (Some u) now db))
  = Some (updated r st (User.id u) now).
Proof.
  intros Hrole Hfind.
  rewrite (update_request_by_worker k st u now db r Hrole Hfind). simpl.
  apply first_by_id_commit with (r := r); [assumption|].
  simpl. now apply first_by_id_id with (db := db).
Qed.

Lemma update_request_not_worker
    (k : Z) (st : string) (user : option User.t) (now : datetime) (db : Db) :
  not_worker user ->
  update_request k st user now db = (Ok (RedirectResponse "/" 307), db).
Proof.
  destruct user as [u|]; simpl; intros H; [|reflexivity].
  unfold update_request.
  apply String.eqb_neq in H. now rewrite H.
Qed.

(** C1, as stated, fails: a worker who moves the completed request
    [fixed_light] back to In Progress leaves it with [resolved_at] set. *)
Lemma update_request_reopen_keeps_resolved_at :
  resolved_iff_completed fixed_light /\
  exists r',
    first_by_id 2 (snd (update_request 2 "In Progress" (Some bob) 9000
                          sample_db)) = Some r'
    /\ ~ resolved_iff_completed r'.
Proof.
  split.
  - unfold resolved_iff_completed; simpl. split; [reflexivity | discriminate].
  - eexists. split; [reflexivity|].
    unfold resolved_iff_completed; simpl. intros [H _].
    assert (Some 5000 <> None) as Hs by discriminate.
    specialize (H Hs). discriminate.
Qed.

(** C1, amended: after a worker's update of an existing request, a status
    of Completed implies a set [resolved_at]; the equivalence holds when the
    new status is Completed or [resolved_at] was unset before; any other
    update keeps [resolved_at] as it was. *)
Theorem update_request_resolved_at
    (k : Z) (st : string) (u : User.t) (now : datetime) (db : Db) (r : MR.t) :
  User.role u = "worker" -> first_by_id k db = Some r ->
  exists r',
    first_by_id k (snd (update_request k st (Some u) now db)) = Some r'
    /\ (MR.status r' = "Completed" -> MR.resolved_at r' <> None)
    /\ (st = "Completed" \/ MR.resolved_at r = None -> resolved_iff_completed r')
    /\ (st <> "Completed" -> MR.resolved_at r' = MR.resolved_at r).
Proof.
  intros Hrole Hfind.
  exists (updated r st (User.id u) now).
  split; [now apply update_request_row_after|].
  unfold resolved_iff_completed, updated; simpl.
  destruct (st =? "Completed")%string eqn:E.
  - apply String.eqb_eq in E.
    repeat split; try discriminate; try assumption; try congruence.
  - apply String.eqb_neq in E.
    repeat split; try congruence.
    + destruct H as [H|H]; congruence.
Qed.

Lemma update_request_resolved_at_witness :
  exists r',
    first_by_id 1 (snd (update_request 1 "Completed" (Some bob) 9000
                          sample_db)) = Some r'
    /\ (MR.status r' = "Completed" -> MR.resolved_at r' <> None)
    /\ ("Completed" = "Completed" \/ MR.resolved_at leaking_sink = None ->
        resolved_iff_completed r')
    /\ ("Completed" <> "Completed" ->
        MR.resolved_at r' = MR.resolved_at leaking_sink).
Proof.
  apply (update_request_resolved_at 1 "Completed" bob 9000
           sample_db leaking_sink); reflexivity.
Defined.

(** C2, as stated, fails: marking the completed request [fixed_light]
    Completed again replaces its [resolved_at] by the current time. *)
Lemma update_request_restamps_resolved_at :
  exists r',
    first_by_id 2 (snd (update_request 2 "Completed" (Some bob) 9000
                          sample_db)) = Some r'
    /\ MR.resolved_at r' = Some 9000
    /\ MR.resolved_at r' <> resolved_at_set_once fixed_light "Completed" 9000.
Proof.
  eexists. split; [reflexivity|]. simpl. split; [reflexivity | discriminate].
Qed.

(** C2, amended: a worker's update of an existing request sets its status
    to the new status and its worker to the acting worker, sets
    [resolved_at] to the current time exactly when the new status is
    Completed (already set or not) and leaves it as it was otherwise; it
    never clears [resolved_at]. *)
Theorem update_request_effect
    (k : Z) (st : string) (u : User.t) (now : datetime) (db : Db) (r : MR.t) :
  User.role u = "worker" -> first_by_id k db = Some r ->
  exists r',
    first_by_id k (snd (update_request k st (Some u) now db)) = Some r'
    /\ MR.status r' = st
    /\ MR.assigned_worker_id r' = Some (User.id u)
    /\ MR.resolved_at r'
       = (if (st =? "Completed")%string then Some now else MR.resolved_at r)
    /\ (MR.resolved_at r <> None -> MR.resolved_at r' <> None).
Proof.
  intros Hrole Hfind.
  exists (updated r st (User.id u) now).
  split; [now apply update_request_row_after|].
  unfold updated; simpl. repeat split.
  destruct (st =? "Completed")%string; [discriminate | trivial].
Qed.

Lemma update_request_effect_witness :
  exists r',
    first_by_id 2 (snd (update_request 2 "Completed" (Some bob) 9000
                          sample_db)) = Some r'
    /\ MR.status r' = "Completed"
    /\ MR.assigned_worker_id r' = Some (User.id bob)
    /\ MR.resolved_at r'
       = (if ("Completed" =? "Completed")%string
          then Some 9000 else MR.resolved_at fixed_light)
    /\ (MR.resolved_at fixed_light <> None -> MR.resolved_at r' <> None).
Proof.
  apply (update_request_effect 2 "Completed" bob 9000
           sample_db fixed_light); reflexivity.
Defined.

(** C3, as stated, fails on each of its three cases: an unrecognised
    status, a move out of Completed and a move back to Pending are all
    refused by the design, yet none raises and each is written to the row. *)
Lemma update_request_accepts_refused_transitions :
  let db := sample_db in
  (refused_transition (MR.status leaking_sink) "Cancelled" = true
   /\ ~ fails_with InvalidTransition
          (fst (update_request 1 "Cancelled" (Some bob) 9000 db))
   /\ snd (update_request 1 "Cancelled" (Some bob) 9000 db) <> db)
  /\ (refused_transition (MR.status fixed_light) "In Progress" = true
      /\ ~ fails_with InvalidTransition
             (fst (update_request 2 "In Progress" (Some bob) 9000 db))
      /\ snd (update_request 2 "In Progress" (Some bob) 9000 db) <> db)
  /\ (refused_transition (MR.status broken_ac) "Pending" = true
      /\ ~ fails_with InvalidTransition
             (fst (update_request 3 "Pending" (Some bob) 9000 db))
      /\ snd (update_request 3 "Pending" (Some bob) 9000 db) <> db).
Proof.
  simpl. repeat split; try (intros H; exact H); discriminate.
Qed.

(** C3, amended: a worker's update of an existing request never fails with
    InvalidTransition; whatever the new status string and the current
    status (Completed included), it answers with the redirect to the queue
    and the row carries the new status. *)
Theorem update_request_any_transition
    (k : Z) (st : string) (u : User.t) (now : datetime) (db : Db) (r : MR.t) :
  User.role u = "worker" -> first_by_id k db = Some r ->
  fst (update_request k st (Some u) now db)
  = Ok (RedirectResponse "/worker/queue" 303)
  /\ ~ fails_with InvalidTransition (fst (update_request k st (Some u) now db))
  /\ exists r',
       first_by_id k (snd (update_request k st (Some u) now db)) = Some r'
       /\ MR.status r' = st.
Proof.
  intros Hrole Hfind. split; [|split].
  - now rewrite (update_request_by_worker k st u now db r).
  - rewrite (update_request_by_worker k st u now db r) by assumption.
    simpl. tauto.
  - exists (updated r st (User.id u) now).
    split; [now apply update_request_row_after | reflexivity].
Qed.

Lemma update_request_any_transition_witness :
  fst (update_request 2 "Pending" (Some bob) 9000 sample_db)
  = Ok (RedirectResponse "/worker/queue" 303)
  /\ ~ fails_with InvalidTransition
         (fst (update_request 2 "Pending" (Some bob) 9000 sample_db))
  /\ exists r',
       first_by_id 2 (snd (update_request 2 "Pending" (Some bob) 9000
                             sample_db)) = Some r'
       /\ MR.status r' = "Pending".
Proof.
  apply (update_request_any_transition 2 "Pending" bob 9000
           sample_db fixed_light); reflexivity.
Defined.

(** C4, as stated, fails: an update aimed at an identifier that no row
    carries does not raise NotFound; it returns the same redirect as a
    successful update. *)
Lemma update_request_missing_id_no_error :
  first_by_id 7 sample_db = None
  /\ ~ fails_with NotFound
         (fst (update_request 7 "Completed" (Some bob) 9000 sample_db)).
Proof.
  split; [reflexivity|]. simpl. tauto.
Qed.

(** C4, amended: when the identifier is an integer the database takes
    (signed 64-bit) and resolves to no row, a worker's update raises no
    error: it returns the redirect to the queue, as a successful update
    does, and the table is left as it was. *)
Theorem update_request_missing_id
    (k : Z) (st : string) (u : User.t) (now : datetime) (db : Db) :
  User.role u = "worker" -> sqlite_integer k -> first_by_id k db = None ->
  update_request k st (Some u) now db
  = (Ok (RedirectResponse "/worker/queue" 303), db)
  /\ ~ fails_with NotFound (fst (update_request k st (Some u) now db)).
Proof.
  intros Hrole _ Hfind. unfold update_request.
  rewrite Hrole, Hfind. simpl. split; [reflexivity | tauto].
Qed.

Lemma update_request_missing_id_witness :
  update_request 7 "Completed" (Some bob) 9000 sample_db
  = (Ok (RedirectResponse "/worker/queue" 303), sample_db)
  /\ ~ fails_with NotFound
         (fst (update_request 7 "Completed" (Some bob) 9000 sample_db)).
Proof.
  apply (update_request_missing_id 7 "Completed" bob 9000 sample_db).
  - reflexivity.
  - unfold sqlite_integer. simpl. lia.
  - reflexivity.
Defined.

(** C9, as stated, fails: an update attempted without an identity, or by a
    tenant, is not answered with Forbidden (what [require_role] raises) but
    with a redirect to the index. *)
Lemma update_request_non_worker_no_forbidden :
  fails_with Forbidden (require_role "worker" None)
  /\ ~ fails_with Forbidden
         (fst (update_request 1 "Completed" None 9000 sample_db))
  /\ ~ fails_with Forbidden
         (fst (update_request 1 "Completed" (Some alice) 9000 sample_db)).
Proof.
  simpl. repeat split; tauto.
Qed.

(** C9, amended: for every identity that is null or whose role is not
    worker, the update is not applied: the handler returns a redirect to
    the index and the table, hence every field of the targeted request,
    is left as it was. *)
Theorem update_request_requires_worker
    (k : Z) (st : string) (user : option User.t) (now : datetime) (db : Db) :
  not_worker user ->
  fst (update_request k st user now db) = Ok (RedirectResponse "/" 307)
  /\ snd (update_request k st user now db) = db
  /\ first_by_id k (snd (update_request k st user now db)) = first_by_id k db.
Proof.
  intros H. rewrite (update_request_not_worker k st user now db H).
  simpl. repeat split.
Qed.

Lemma update_request_requires_worker_witness :
  fst (update_request 1 "Completed" (Some carol) 9000 sample_db)
  = Ok (RedirectResponse "/" 307)
  /\ snd (update_request 1 "Completed" (Some carol) 9000 sample_db) = sample_db
  /\ first_by_id 1 (snd (update_request 1 "Completed" (Some carol) 9000
                           sample_db))
     = first_by_id 1 sample_db.
Proof.
  apply (update_request_requires_worker 1 "Completed" (Some carol) 9000
           sample_db).
  simpl. discriminate.
Defined.

(** C10: a worker's update of an existing request, whatever the status
    string and the request's state, changes at most [status],
    [assigned_worker_id] and [resolved_at] of that row: its identifier,
    tenant, unit, category, urgency, description and creation time are
    kept, its worker is overwritten with the acting worker, and every
    other row is found as before. *)
Theorem update_request_frame
    (k : Z) (st : string) (u : User.t) (now : datetime) (db : Db) (r : MR.t) :
  User.role u = "worker" -> first_by_id k db = Some r ->
  (exists r',
     first_by_id k (snd (update_request k st (Some u) now db)) = Some r'
     /\ MR.id r' = MR.id r
     /\ MR.tenant_id r' = MR.tenant_id r
     /\ MR.unit_number r' = MR.unit_number r
     /\ MR.category r' = MR.category r
     /\ MR.urgency r' = MR.urgency r
     /\ MR.description r' = MR.description r
     /\ MR.created_at r' = MR.created_at r
     /\ MR.assigned_worker_id r' = Some (User.id u))
  /\ (forall j, j <> k ->
        first_by_id j (snd (update_request k st (Some u) now db))
        = first_by_id j db)
  /\ List.length (snd (update_request k st (Some u) now db)) = List.length db.
Proof.
  intros Hrole Hfind. split; [|split].
  - exists (updated r st (User.id u) now).
    split; [now apply update_request_row_after|].
    unfold updated; simpl. repeat split.
  - intros j Hj.
    rewrite (update_request_by_worker k st u now db r Hrole Hfind). simpl.
    apply first_by_id_commit_other. simpl.
    rewrite (first_by_id_id k db r Hfind). exact Hj.
  - rewrite (update_request_by_worker k st u now db r Hrole Hfind). simpl.
    apply length_commit.
Qed.

Lemma update_request_frame_witness :
  (exists r',
     first_by_id 2 (snd (update_request 2 "On Hold" (Some bob) 9000
                           sample_db)) = Some r'
     /\ MR.id r' = MR.id fixed_light
     /\ MR.tenant_id r' = MR.tenant_id fixed_light
     /\ MR.unit_number r' = MR.unit_number fixed_light
     /\ MR.category r' = MR.category fixed_light
     /\ MR.urgency r' = MR.urgency fixed_light
     /\ MR.description r' = MR.description fixed_light
     /\ MR.created_at r' = MR.created_at fixed_light
     /\ MR.assigned_worker_id r' = Some (User.id bob))
  /\ (forall j, j <> 2 ->
        first_by_id j (snd (update_request 2 "On Hold" (Some bob) 9000
                              sample_db))
        = first_by_id j sample_db)
  /\ List.length (snd (update_request 2 "On Hold" (Some bob) 9000 sample_db))
     = List.length sample_db.
Proof.
  apply (update_request_frame 2 "On Hold" bob 9000
           sample_db fixed_light); reflexivity.
Defined.

(** ** Tenant submission *)

Lemma id_below_next_id (db : Db) (r : MR.t) :
  In r db -> MR.id r < next_id db.
Proof.
  unfold next_id. induction db as [|x db IH]; cbn [In map fold_right]; [tauto|].
  intros [->|H]; [lia|]. specialize (IH H). lia.
Qed.

Lemma next_id_fresh (db : Db) : first_by_id (next_id db) db = None.
Proof.
  unfold first_by_id.
  destruct (find (fun r => MR.id r =? next_id db) db) as [r|] eqn:E;
    [|reflexivity].
  apply find_some in E. destruct E as [Hin Hid].
  apply Z.eqb_eq in Hid. apply id_below_next_id in Hin. lia.
Qed.

Lemma first_by_id_add (k : Z) (req : MR.t) (db : Db) :
  first_by_id k (add req db)
  = match first_by_id k db with
    | Some r => Some r
    | None => if MR.id req =? k then Some req else None
    end.
Proof.
  unfold first_by_id, add.
  induction db as [|x db IH]; simpl; [reflexivity|].
  now destruct (MR.id x =? k).
Qed.

(** What the handler does with the values it is called with: it checks
    neither category nor urgency against a recognised set.  Called by a
    tenant, it raises nothing, renders the form page with the success flag
    and stores exactly one new row: the values as given, status Pending,
    no worker, no resolution time, under an identifier no earlier row
    carries; every earlier row stays in place. *)
Lemma submit_request_stores_any_values
    (unit_number category urgency description : string)
    (u : User.t) (now : datetime) (db : Db) :
  User.role u = "tenant" ->
  let out := submit_request unit_number category urgency description
               (Some u) now db in
  let new_req := MR.mk (next_id db) (User.id u) unit_number category urgency
                   description "Pending" (Some now) None None in
  fst out = Ok (TemplateResponse "submit_request.html" (SubmitContext u true))
  /\ ~ fails_with ValidationError (fst out)
  /\ snd out = (db ++ [new_req])%list
  /\ first_by_id (next_id db) db = None
  /\ first_by_id (next_id db) (snd out) = Some new_req
  /\ (forall j, j <> next_id db -> first_by_id j (snd out) = first_by_id j db).
Proof.
  intros Hrole out new_req. subst out. unfold submit_request.
  rewrite Hrole. simpl. fold new_req.
  repeat split; try tauto.
  - apply next_id_fresh.
  - rewrite first_by_id_add, next_id_fresh. simpl. now rewrite Z.eqb_refl.
  - intros j Hj. rewrite first_by_id_add.
    destruct (first_by_id j db); [reflexivity|]. simpl.
    apply Z.eqb_neq in Hj. rewrite Z.eqb_sym. now rewrite Hj.
Qed.

Lemma form_given_four (a b c d : string) :
  form_given [a; b; c; d] = true
  <-> a <> "" /\ b <> "" /\ c <> "" /\ d <> "".
Proof.
  unfold form_given. simpl.
  rewrite !andb_true_iff, !negb_true_iff, !String.eqb_neq. tauto.
Qed.

(** C5, as stated, fails: a submission whose four values are given and
    whose category and urgency are outside the recognised sets is refused
    by the design, yet the route raises nothing and a row is stored. *)
Lemma post_tenant_submit_accepts_unknown_category :
  refused_submission "101" "Gardening" "Whenever" "Hedge needs a trim." = true
  /\ ~ fails_with ValidationError
         (fst (post_tenant_submit "101" "Gardening" "Whenever"
                 "Hedge needs a trim." (Some alice) 9000 sample_db))
  /\ snd (post_tenant_submit "101" "Gardening" "Whenever"
            "Hedge needs a trim." (Some alice) 9000 sample_db) <> sample_db.
Proof.
  simpl. split; [reflexivity|]. split; [tauto | discriminate].
Qed.

(** C5, amended: for every submit call by a tenant in which unit number,
    category, urgency or description is empty, the operation fails with a
    validation error (the 422 answer to a required form field) and no
    record is created; a call whose four values are given is validated no
    further: whatever the category and the urgency, inside the recognised
    sets or not, it raises nothing and stores exactly one new row, the
    values as given, status Pending, no worker, no resolution time, under
    an identifier no earlier row carries, every earlier row staying in
    place. *)
Theorem post_tenant_submit_validates_presence_only
    (unit_number category urgency description : string)
    (u : User.t) (now : datetime) (db : Db) :
  User.role u = "tenant" ->
  let out := post_tenant_submit unit_number category urgency description
               (Some u) now db in
  let new_req := MR.mk (next_id db) (User.id u) unit_number category urgency
                   description "Pending" (Some now) None None in
  (unit_number = "" \/ category = "" \/ urgency = "" \/ description = "" ->
   fails_with ValidationError (fst out) /\ snd out = db)
  /\ (unit_number <> "" -> category <> "" -> urgency <> "" ->
      description <> "" ->
      fst out = Ok (TemplateResponse "submit_request.html" (SubmitContext u true))
      /\ ~ fails_with ValidationError (fst out)
      /\ snd out = (db ++ [new_req])%list
      /\ first_by_id (next_id db) db = None
      /\ first_by_id (next_id db) (snd out) = Some new_req
      /\ (forall j, j <> next_id db ->
            first_by_id j (snd out) = first_by_id j db)).
Proof.
  intros Hrole out new_req. subst out. unfold post_tenant_submit.
  destruct (form_given [unit_number; category; urgency; description]) eqn:E.
  - apply form_given_four in E. split; [tauto|]. intros _ _ _ _.
    exact (submit_request_stores_any_values unit_number category urgency
             description u now db Hrole).
  - split; [intros _; split; reflexivity|].
    intros H1 H2 H3 H4.
    assert (form_given [unit_number; category; urgency; description] = true)
      as E' by (apply form_given_four; tauto).
    congruence.
Qed.

Lemma post_tenant_submit_validates_presence_only_witness :
  let out := post_tenant_submit "104" "Plumbing" "High" ""
               (Some alice) 9000 sample_db in
  let new_req := MR.mk (next_id sample_db) (User.id alice) "104" "Plumbing"
                   "High" "" "Pending" (Some 9000) None None in
  ("104" = "" \/ "Plumbing" = "" \/ "High" = "" \/ "" = "" ->
   fails_with ValidationError (fst out) /\ snd out = sample_db)
  /\ ("104" <> "" -> "Plumbing" <> "" -> "High" <> "" -> "" <> "" ->
      fst out
      = Ok (TemplateResponse "submit_request.html" (SubmitContext alice true))
      /\ ~ fails_with ValidationError (fst out)
      /\ snd out = (sample_db ++ [new_req])%list
      /\ first_by_id (next_id sample_db) sample_db = None
      /\ first_by_id (next_id sample_db) (snd out) = Some new_req
      /\ (forall j, j <> next_id sample_db ->
            first_by_id j (snd out) = first_by_id j sample_db)).
Proof.
  apply (post_tenant_submit_validates_presence_only "104" "Plumbing" "High" ""
           alice 9000 sample_db).
  reflexivity.
Defined.

Example post_tenant_submit_sample :
  post_tenant_submit "104" "Plumbing" "High" "" (Some alice) 9000 sample_db
  = (HTTPException 422 "Field required", sample_db)
  /\ map MR.id
       (snd (post_tenant_submit "104" "Gardening" "Whenever"
               "Hedge needs a trim." (Some alice) 9000 sample_db))
     = [1; 2; 3; 4].
Proof. split; reflexivity. Qed.

(** ** The worker queue *)

Section SortByKey.
Context {A : Type} (key : A -> Z).

Let leb (a b : A) : bool := key a <=? key b.
Let le (a b : A) : Prop := key a <= key b.

Lemma insert_perm (x : A) (l : list A) : Permutation (insert leb x l) (x :: l).
Proof.
  induction l as [|y t IH]; simpl; [reflexivity|].
  destruct (leb x y); [reflexivity|].
  rewrite IH. apply perm_swap.
Qed.

Lemma sort_perm (l : list A) : Permutation (sort leb l) l.
Proof.
  induction l as [|x t IH]; simpl; [reflexivity|].
  rewrite insert_perm. now apply perm_skip.
Qed.

Lemma insert_sorted (x : A) (l : list A) :
  StronglySorted le l -> StronglySorted le (insert leb x l).
Proof.
  induction 1 as [|y t Ht IH Hy]; simpl.
  - constructor; constructor.
  - unfold leb at 1. destruct (key x <=? key y) eqn:E.
    + apply Z.leb_le in E. constructor.
      * now constructor.
      * constructor; [exact E|].
        eapply Forall_impl; [|exact Hy].
        unfold le. intros z Hz. lia.
    + apply Z.leb_gt in E. constructor; [exact IH|].
      rewrite (insert_perm x t).
      constructor; [unfold le; lia | exact Hy].
Qed.

Lemma sort_sorted (l : list A) : StronglySorted le (sort leb l).
Proof.
  induction l as [|x t IH]; simpl; [constructor|].
  now apply insert_sorted.
Qed.

(** Stability: the elements of any one key come out in the order they
    went in. *)
Lemma insert_stable (k : Z) (x : A) (l : list A) :
  filter (fun a => key a =? k) (insert leb x l)
  = filter (fun a => key a =? k) (x :: l).
Proof.
  induction l as [|y t IH]; simpl; [reflexivity|].
  unfold leb at 1. destruct (key x <=? key y) eqn:E; [reflexivity|].
  apply Z.leb_gt in E. simpl. rewrite IH. simpl.
  destruct (key x =? k) eqn:Ex; destruct (key y =? k) eqn:Ey;
    try reflexivity.
  apply Z.eqb_eq in Ex, Ey. lia.
Qed.

Lemma sort_stable (k : Z) (l : list A) :
  filter (fun a => key a =? k) (sort leb l) = filter (fun a => key a =? k) l.
Proof.
  induction l as [|x t IH]; simpl; [reflexivity|].
  rewrite insert_stable. simpl. now rewrite IH.
Qed.
End SortByKey.

Lemma is_open_iff (r : MR.t) : is_open r = true <-> MR.status r <> "Completed".
Proof.
  unfold is_open. rewrite negb_true_iff. apply String.eqb_neq.
Qed.

Lemma urgency_order_unrecognised (s : string) :
  ~ In s urgencies -> urgency_order s = 4.
Proof.
  unfold urgencies, urgency_order. simpl. intros H.
  destruct (s =? "Emergency")%string eqn:E1;
    [apply String.eqb_eq in E1; subst; tauto|].
  destruct (s =? "High")%string eqn:E2;
    [apply String.eqb_eq in E2; subst; tauto|].
  destruct (s =? "Medium")%string eqn:E3;
    [apply String.eqb_eq in E3; subst; tauto|].
  destruct (s =? "Low")%string eqn:E4;
    [apply String.eqb_eq in E4; subst; tauto|].
  reflexivity.
Qed.

(** C6: for a worker, the queue page lists exactly the requests whose
    status is not Completed (each as often as the table holds it, and never
    a Completed one), in non-decreasing urgency rank, where Emergency,
    High, Medium and Low rank 0, 1, 2 and 3 and any other urgency ranks 4;
    the requests of one rank keep the order they have in the table. *)
Theorem work_queue_sorted_by_urgency (u : User.t) (db : Db) :
  User.role u = "worker" ->
  exists q,
    work_queue (Some u) db
    = (Ok (TemplateResponse "work_queue.html" (QueueContext u q)), db)
    /\ Permutation q (filter is_open db)
    /\ (forall r, In r q <-> In r db /\ MR.status r <> "Completed")
    /\ StronglySorted
         (fun a b => urgency_order (MR.urgency a) <= urgency_order (MR.urgency b)) q
    /\ (forall k, of_rank k q = of_rank k (filter is_open db))
    /\ (urgency_order "Emergency" = 0 /\ urgency_order "High" = 1
        /\ urgency_order "Medium" = 2 /\ urgency_order "Low" = 3
        /\ forall s, ~ In s urgencies -> urgency_order s = 4).
Proof.
  intros Hrole. exists (queue_requests db).
  unfold work_queue. rewrite Hrole. simpl.
  split; [reflexivity|].
  unfold queue_requests, by_urgency.
  pose proof (sort_perm (fun r => urgency_order (MR.urgency r))
                (filter is_open db)) as Hperm.
  split; [exact Hperm|]. split; [|split; [|split]].
  - intros r. rewrite <- is_open_iff, <- filter_In.
    split; intros H.
    + now apply (Permutation_in _ Hperm).
    + now apply (Permutation_in _ (Permutation_sym Hperm)).
  - apply (sort_sorted (fun r => urgency_order (MR.urgency r))).
  - intros k. unfold of_rank.
    apply (sort_stable (fun r => urgency_order (MR.urgency r))).
  - repeat split. apply urgency_order_unrecognised.
Qed.

Lemma work_queue_sorted_by_urgency_witness :
  exists q,
    work_queue (Some bob) sample_db
    = (Ok (TemplateResponse "work_queue.html" (QueueContext bob q)), sample_db)
    /\ Permutation q (filter is_open sample_db)
    /\ (forall r, In r q <-> In r sample_db /\ MR.status r <> "Completed")
    /\ StronglySorted
         (fun a b => urgency_order (MR.urgency a) <= urgency_order (MR.urgency b)) q
    /\ (forall k, of_rank k q = of_rank k (filter is_open sample_db))
    /\ (urgency_order "Emergency" = 0 /\ urgency_order "High" = 1
        /\ urgency_order "Medium" = 2 /\ urgency_order "Low" = 3
        /\ forall s, ~ In s urgencies -> urgency_order s = 4).
Proof.
  apply (work_queue_sorted_by_urgency bob sample_db). reflexivity.
Defined.

Example work_queue_five_open :
  map MR.id (queue_requests five_open) = [2; 5; 4; 3; 1].
Proof. reflexivity. Qed.

(** ** The manager dashboard *)

Lemma len_cons {A : Type} (x : A) (l : list A) : len (x :: l) = 1 + len l.
Proof. unfold len. cbn [List.length]. lia. Qed.

Lemma len_filter_count_if (p : MR.t -> bool) (l : list MR.t) :
  len (filter p l) = count_if p l.
Proof.
  induction l as [|r rest IH]; cbn [filter count_if]; [reflexivity|].
  destruct (p r); rewrite ?len_cons; lia.
Qed.

Lemma count_if_split (p : MR.t -> bool) (l : list MR.t) :
  count_if p l + count_if (fun r => negb (p r)) l = len l.
Proof.
  induction l as [|r rest IH]; cbn [count_if]; [reflexivity|].
  rewrite len_cons. destruct (p r); cbn [negb]; lia.
Qed.

Lemma is_completed_iff (r : MR.t) :
  is_completed r = true <-> MR.status r = "Completed".
Proof. apply String.eqb_eq. Qed.

(** C8: for a manager, the dashboard shows as open count the number of
    requests whose status is not Completed, as completed count the number
    whose status is Completed, and as emergency count the number whose
    urgency is Emergency and whose status is not Completed; the first two
    add up to the size of the table, and on an empty table the three
    counts are 0 and the recent requests are none. *)
Theorem dashboard_counts (u : User.t) (db : Db) :
  User.role u = "manager" ->
  (exists o c e avg recent,
     dashboard (Some u) db
     = (Ok (TemplateResponse "dashboard.html"
              (DashboardContext u o avg e c recent)), db)
     /\ o = count_if (fun r => negb (MR.status r =? "Completed")%string) db
     /\ c = count_if (fun r => (MR.status r =? "Completed")%string) db
     /\ e = count_if (fun r => (MR.urgency r =? "Emergency")%string
                               && negb (MR.status r =? "Completed")%string) db
     /\ o + c = len db)
  /\ dashboard (Some u) []
     = (Ok (TemplateResponse "dashboard.html"
              (DashboardContext u 0 (PyInt 0) 0 0 [])), []).
Proof.
  intros Hrole. unfold dashboard. rewrite Hrole. simpl. split; [|reflexivity].
  do 5 eexists. split; [reflexivity|].
  unfold open_requests, completed_count, emergency_count.
  rewrite !len_filter_count_if.
  repeat split.
  rewrite Z.add_comm. apply (count_if_split is_completed).
Qed.

Lemma dashboard_counts_witness :
  (exists o c e avg recent,
     dashboard (Some carol) sample_db
     = (Ok (TemplateResponse "dashboard.html"
              (DashboardContext carol o avg e c recent)), sample_db)
     /\ o = count_if (fun r => negb (MR.status r =? "Completed")%string) sample_db
     /\ c = count_if (fun r => (MR.status r =? "Completed")%string) sample_db
     /\ e = count_if (fun r => (MR.urgency r =? "Emergency")%string
                               && negb (MR.status r =? "Completed")%string)
              sample_db
     /\ o + c = len sample_db)
  /\ dashboard (Some carol) []
     = (Ok (TemplateResponse "dashboard.html"
              (DashboardContext carol 0 (PyInt 0) 0 0 [])), []).
Proof.
  apply (dashboard_counts carol sample_db). reflexivity.
Defined.

Example dashboard_sample_db :
  open_requests sample_db = 2 /\ completed_count sample_db = 1
  /\ emergency_count sample_db = 1.
Proof. repeat split. Qed.

(** *** Average resolution time *)

Lemma accumulate_timed (rs : list MR.t) (total_time : float) (count_time : Z) :
  accumulate rs total_time count_time
  = (fold_left PrimFloat.add (map hours (filter timed rs)) total_time,
     count_time + len (filter timed rs)).
Proof.
  revert total_time count_time.
  induction rs as [|r rest IH]; intros total_time count_time.
  - cbn. f_equal. unfold len. simpl. lia.
  - assert (timed r = false \/
            exists resolved created,
              MR.resolved_at r = Some resolved /\ MR.created_at r = Some created
              /\ timed r = true /\ hours r = resolution_hours resolved created)
      as [Ht | (resolved & created & Er & Ec & Ht & Hh)].
    { unfold timed, hours.
      destruct (MR.resolved_at r) as [resolved|];
        destruct (MR.created_at r) as [created|]; auto.
      right. exists resolved, created. auto. }
    + cbn [accumulate filter]. rewrite Ht.
      unfold timed in Ht.
      destruct (MR.resolved_at r); destruct (MR.created_at r);
        try discriminate; apply IH.
    + cbn [accumulate filter]. rewrite Er, Ec, Ht, IH.
      cbn [map fold_left]. rewrite Hh, len_cons. f_equal. lia.
Qed.

Lemma filter_timed_completed (db : Db) :
  filter timed (filter is_completed db) = resolved_requests db.
Proof.
  unfold resolved_requests.
  induction db as [|r rest IH]; cbn [filter]; [reflexivity|].
  destruct (is_completed r); cbn [filter andb]; now rewrite IH.
Qed.

Lemma len_nonneg {A : Type} (l : list A) : 0 <= len l.
Proof. unfold len. lia. Qed.

Lemma avg_resolution_time_mean (db : Db) :
  avg_resolution_time db
  = match resolved_requests db with
    | [] => PyInt 0
    | rs => PyFloat (round (float_sum (map hours rs) / float_of_int (len rs)) 1)
    end.
Proof.
  unfold avg_resolution_time.
  rewrite accumulate_timed, filter_timed_completed.
  destruct (resolved_requests db) as [|r rs]; [reflexivity|].
  pose proof (len_nonneg rs) as Hn.
  rewrite len_cons in *.
  assert ((0 + (1 + len rs) >? 0) = true) as -> by (apply Z.gtb_lt; lia).
  reflexivity.
Qed.

Lemma round_half_even_nearest (n d : Z) :
  0 < d -> nearest_even n d (round_half_even n d).
Proof.
  intros Hd. unfold nearest_even, round_half_even.
  pose proof (Z.div_mod n d ltac:(lia)) as Hdm.
  pose proof (Z.mod_pos_bound n d Hd) as Hr.
  set (q := n / d) in *. set (r := n mod d) in *.
  assert (n - q * d = r) as H0 by lia.
  assert (n - (q + 1) * d = r - d) as H1 by lia.
  destruct (Z.compare_spec (2 * r) d) as [He|Hl|Hg].
  - destruct (Z.even q) eqn:Eq.
    + rewrite H0. split; [lia | intros _; exact Eq].
    + rewrite H1. split; [lia|]. intros _.
      rewrite Z.add_1_r, Z.even_succ, <- Z.negb_even, Eq. reflexivity.
  - rewrite H0. split; lia.
  - rewrite H1. split; lia.
Qed.

Lemma round_steps_nearest (m : positive) (e ndigits : Z) :
  0 < snd (scaled m e ndigits)
  /\ nearest_even (fst (scaled m e ndigits)) (snd (scaled m e ndigits))
       (round_steps m e ndigits).
Proof.
  unfold scaled, round_steps.
  destruct (0 <=? e) eqn:E; cbn [fst snd].
  - split; [lia|]. unfold nearest_even. split; lia.
  - apply Z.leb_gt in E.
    assert (0 < 2 ^ (- e)) as Hd by (apply Z.pow_pos_nonneg; lia).
    split; [exact Hd|]. now apply round_half_even_nearest.
Qed.

Lemma round_finite (x : float) (ndigits : Z) (s : bool) (m : positive) (e : Z) :
  Prim2SF x = S754_finite s m e ->
  round x ndigits
  = with_sign s (int_truediv (round_steps m e ndigits) (10 ^ ndigits)).
Proof.
  intros H. unfold round. now rewrite H.
Qed.

(** C7, as stated, fails: four requests completed after 1, 1, 1 and 2
    hours have a mean of exactly 1.25 hours; a half rounded up gives 1.3,
    the dashboard shows 1.2. *)
Lemma avg_resolution_time_not_half_up :
  avg_resolution_time four_fixes = PyFloat (int_truediv 12 10)
  /\ avg_half_up four_fixes = PyFloat (int_truediv 13 10)
  /\ avg_resolution_time four_fixes <> avg_half_up four_fixes.
Proof.
  assert (avg_resolution_time four_fixes = PyFloat (int_truediv 12 10)) as H2
    by (vm_compute; reflexivity).
  assert (avg_half_up four_fixes = PyFloat (int_truediv 13 10)) as H3
    by (vm_compute; reflexivity).
  split; [exact H2 | split; [exact H3 |]].
  rewrite H2, H3. intros H.
  apply (f_equal (fun n => match n with
                           | PyFloat y => PrimFloat.eqb y (int_truediv 12 10)
                           | PyInt _ => false
                           end)) in H.
  vm_compute in H. discriminate.
Qed.

(** C7, amended: the dashboard's average is exactly 0 when no completed
    request has both timestamps set.  Otherwise it is [round(mean, 1)],
    where the mean is the binary64 sum of the resolution times in hours of
    the completed requests with both timestamps, divided by their number;
    when that mean is finite, the result is the float nearest to [k / 10],
    with [k] the integer nearest to ten times the exact value of the mean,
    the even one at a tie (round half to even, not half up). *)
Theorem avg_resolution_time_rounds_half_even (db : Db) :
  match resolved_requests db with
  | [] => avg_resolution_time db = PyInt 0
  | rs =>
      let mean := (float_sum (map hours rs) / float_of_int (len rs))%float in
      avg_resolution_time db = PyFloat (round mean 1)
      /\ forall s m e,
           Prim2SF mean = S754_finite s m e ->
           exists k,
             round mean 1 = with_sign s (int_truediv k 10)
             /\ 0 < snd (scaled m e 1)
             /\ nearest_even (fst (scaled m e 1)) (snd (scaled m e 1)) k
  end.
Proof.
  rewrite avg_resolution_time_mean.
  destruct (resolved_requests db) as [|r rs]; [reflexivity|].
  split; [reflexivity|].
  intros s m e H. exists (round_steps m e 1).
  split; [exact (round_finite _ 1 s m e H)|].
  apply round_steps_nearest.
Qed.

Example avg_resolution_time_three_fixes :
  avg_resolution_time three_fixes = PyFloat 2.
Proof. vm_compute. reflexivity. Qed.

Example avg_resolution_time_sample_db :
  avg_resolution_time [] = PyInt 0
  /\ avg_resolution_time sample_db = PyFloat 0
  /\ avg_resolution_time [leaking_sink; broken_ac] = PyInt 0.
Proof. vm_compute. repeat split. Qed.

Example mean_quick_fix :
  Prim2SF (float_sum (map hours [quick_fix]) / float_of_int (len [quick_fix]))
  = S754_finite false 4503599627370496 (-54)
  /\ scaled 4503599627370496 (-54) 1 = (45035996273704960, 2 ^ 54)
  /\ round_steps 4503599627370496 (-54) 1 = 2.
Proof. vm_compute. repeat split. Qed.

Lemma avg_resolution_time_rounds_half_even_witness :
  let mean :=
    (float_sum (map hours [quick_fix]) / float_of_int (len [quick_fix]))%float in
  avg_resolution_time [quick_fix] = PyFloat (round mean 1)
  /\ forall s m e,
       Prim2SF mean = S754_finite s m e ->
       exists k,
         round mean 1 = with_sign s (int_truediv k 10)
         /\ 0 < snd (scaled m e 1)
         /\ nearest_even (fst (scaled m e 1)) (snd (scaled m e 1)) k.
Proof.
  exact (avg_resolution_time_rounds_half_even [quick_fix]).
Defined.

Example avg_resolution_time_quick_fix :
  avg_resolution_time [quick_fix] = PyFloat (int_truediv 2 10)
  /\ avg_half_up [quick_fix] = PyFloat (int_truediv 3 10).
Proof. vm_compute. split; reflexivity. Qed.

(** ** Ordered queries *)

Section SortByOrder.
Context {A : Type} (leb : A -> A -> bool).
Hypothesis leb_total : forall a b, leb a b = true \/ leb b a = true.
Hypothesis leb_trans :
  forall a b c, leb a b = true -> leb b c = true -> leb a c = true.

Let ordered (a b : A) : Prop := leb a b = true.

Lemma insert_perm_order (x : A) (l : list A) :
  Permutation (insert leb x l) (x :: l).
Proof.
  induction l as [|y t IH]; simpl; [reflexivity|].
  destruct (leb x y); [reflexivity|].
  rewrite IH. apply perm_swap.
Qed.

Lemma sort_perm_order (l : list A) : Permutation (sort leb l) l.
Proof.
  induction l as [|x t IH]; simpl; [reflexivity|].
  rewrite insert_perm_order. now apply perm_skip.
Qed.

Lemma insert_sorted_order (x : A) (l : list A) :
  StronglySorted ordered l -> StronglySorted ordered (insert leb x l).
Proof.
  induction 1 as [|y t Ht IH Hy]; simpl.
  - constructor; constructor.
  - destruct (leb x y) eqn:E.
    + constructor; [now constructor|].
      constructor; [exact E|].
      eapply Forall_impl; [|exact Hy].
      intros z Hz. exact (leb_trans x y z E Hz).
    + constructor; [exact IH|].
      rewrite (insert_perm_order x t).
      constructor; [|exact Hy].
      destruct (leb_total x y) as [H|H]; [congruence | exact H].
Qed.

Lemma sort_sorted_order (l : list A) : StronglySorted ordered (sort leb l).
Proof.
  induction l as [|x t IH]; simpl; [constructor|].
  now apply insert_sorted_order.
Qed.

(** An element that goes before all others comes out first. *)
Lemma insert_first (x : A) (l : list A) :
  Forall (fun y => leb x y = true) l -> insert leb x l = x :: l.
Proof.
  destruct l as [|y t]; simpl; [reflexivity|].
  intros H. inversion H as [|? ? Hy _]; subst. now rewrite Hy.
Qed.

Lemma sort_sorted_id (l : list A) :
  StronglySorted ordered l -> sort leb l = l.
Proof.
  induction 1 as [|x t Ht IH Hx]; simpl; [reflexivity|].
  rewrite IH. now apply insert_first.
Qed.

(** An element strictly after none, added last, is sorted to the front. *)
Lemma sort_app_newest (x : A) (l : list A) :
  Forall (fun y => leb y x = false) l ->
  sort leb (l ++ [x]) = x :: sort leb l.
Proof.
  induction l as [|y t IH]; simpl; [reflexivity|].
  intros H. inversion H as [|? ? Hy Ht]; subst.
  rewrite (IH Ht). simpl. now rewrite Hy.
Qed.
End SortByOrder.

Lemma StronglySorted_app_inv {A : Type} (R : A -> A -> Prop) (l1 l2 : list A) :
  StronglySorted R (l1 ++ l2) ->
  StronglySorted R l1 /\ StronglySorted R l2
  /\ forall a b, In a l1 -> In b l2 -> R a b.
Proof.
  induction l1 as [|x t IH]; simpl; intros H.
  - repeat split; [constructor | exact H | intros a b []].
  - inversion H as [|? ? Hs Hx]; subst.
    destruct (IH Hs) as (H1 & H2 & H12).
    rewrite Forall_app in Hx. destruct Hx as [Hx1 Hx2].
    split; [now constructor|]. split; [exact H2|].
    intros a b [->|Ha] Hb.
    + rewrite Forall_forall in Hx2. now apply Hx2.
    + now apply H12.
Qed.

Lemma by_created_desc_total (a b : MR.t) :
  by_created_desc a b = true \/ by_created_desc b a = true.
Proof.
  unfold by_created_desc.
  destruct (MR.created_at a) as [ta|]; destruct (MR.created_at b) as [tb|];
    auto.
  destruct (Z.leb_spec tb ta); [now left|]. right. apply Z.leb_le. lia.
Qed.

Lemma by_created_desc_trans (a b c : MR.t) :
  by_created_desc a b = true -> by_created_desc b c = true ->
  by_created_desc a c = true.
Proof.
  unfold by_created_desc.
  destruct (MR.created_at a) as [ta|]; destruct (MR.created_at b) as [tb|];
    destruct (MR.created_at c) as [tc|]; try discriminate; auto.
  rewrite !Z.leb_le. lia.
Qed.

Lemma by_created_desc_not_older (a b : MR.t) :
  by_created_desc a b = true <-> not_older a b.
Proof.
  unfold by_created_desc, not_older.
  destruct (MR.created_at b) as [tb|]; destruct (MR.created_at a) as [ta|];
    try (split; [trivial | reflexivity]); try (split; [discriminate | tauto]).
  apply Z.leb_le.
Qed.

Lemma sorted_not_older (l : list MR.t) :
  StronglySorted (fun a b => by_created_desc a b = true) l ->
  StronglySorted not_older l.
Proof.
  induction 1 as [|x t Ht IH Hx]; constructor; [exact IH|].
  eapply Forall_impl; [|exact Hx].
  intros y. apply by_created_desc_not_older.
Qed.

Lemma newest_first_sorted (l : list MR.t) :
  StronglySorted not_older (sort by_created_desc l).
Proof.
  apply sorted_not_older.
  apply sort_sorted_order;
    [exact by_created_desc_total | exact by_created_desc_trans].
Qed.

(** X1: the dashboard's recent requests are at most ten rows of the table
    (all of them when it holds fewer), newest first, and every row left out
    is no newer than any row shown. *)
Theorem recent_requests_newest (db : Db) :
  List.length (recent_requests db) = Nat.min 10 (List.length db)
  /\ StronglySorted not_older (recent_requests db)
  /\ exists rest,
       Permutation db (recent_requests db ++ rest)
       /\ forall a b, In a (recent_requests db) -> In b rest -> not_older a b.
Proof.
  unfold recent_requests.
  pose proof (sort_perm_order by_created_desc db) as Hperm.
  pose proof (newest_first_sorted db) as Hsorted.
  rewrite <- (firstn_skipn 10 (sort by_created_desc db)) in Hsorted.
  apply StronglySorted_app_inv in Hsorted.
  destruct Hsorted as (H1 & _ & H12).
  split; [|split; [exact H1|]].
  - rewrite length_firstn. now rewrite (Permutation_length Hperm).
  - exists (skipn 10 (sort by_created_desc db)).
    split; [|exact H12].
    rewrite firstn_skipn. now symmetry.
Qed.

(** X2: a tenant's request page lists exactly the rows of the table whose
    tenant is the acting user, each as often as the table holds it and
    never a row of another tenant, newest first; the table is not
    changed. *)
Theorem my_requests_own_only (u : User.t) (db : Db) :
  User.role u = "tenant" ->
  exists l,
    my_requests (Some u) db = (Render "my_requests.html" (MyRequests u l), db)
    /\ Permutation l (filter (fun r => MR.tenant_id r =? User.id u) db)
    /\ (forall r, In r l <-> In r db /\ MR.tenant_id r = User.id u)
    /\ StronglySorted not_older l.
Proof.
  intros Hrole. exists (requests_of (User.id u) db).
  unfold my_requests. rewrite Hrole. simpl.
  split; [reflexivity|].
  unfold requests_of.
  pose proof (sort_perm_order by_created_desc
                (filter (fun r => MR.tenant_id r =? User.id u) db)) as Hperm.
  split; [exact Hperm|]. split.
  - intros r. rewrite <- Z.eqb_eq.
    rewrite <- (filter_In (fun r => MR.tenant_id r =? User.id u)).
    split; intros H.
    + now apply (Permutation_in _ Hperm).
    + now apply (Permutation_in _ (Permutation_sym Hperm)).
  - apply newest_first_sorted.
Qed.

Lemma my_requests_own_only_witness :
  exists l,
    my_requests (Some alice) sample_db
    = (Render "my_requests.html" (MyRequests alice l), sample_db)
    /\ Permutation l (filter (fun r => MR.tenant_id r =? User.id alice) sample_db)
    /\ (forall r, In r l <-> In r sample_db /\ MR.tenant_id r = User.id alice)
    /\ StronglySorted not_older l.
Proof.
  apply (my_requests_own_only alice sample_db). reflexivity.
Defined.

Lemma filter_add (p : MR.t -> bool) (req : MR.t) (db : Db) :
  filter p (add req db)
  = (filter p db ++ (if p req then [req] else []))%list.
Proof.
  unfold add. rewrite filter_app. simpl. now destruct (p req).
Qed.

(** X3: when a tenant submits a request at a time later than the creation
    of every request the tenant already has, the tenant's request page
    afterwards shows the new request first, followed by the page as it was
    before. *)
Theorem submit_request_tops_my_requests
    (unit_number category urgency description : string)
    (u : User.t) (now : datetime) (db : Db) :
  User.role u = "tenant" ->
  (forall r t, In r db -> MR.tenant_id r = User.id u ->
               MR.created_at r = Some t -> t < now) ->
  let db' := snd (submit_request unit_number category urgency description
                    (Some u) now db) in
  requests_of (User.id u) db'
  = MR.mk (next_id db) (User.id u) unit_number category urgency description
          "Pending" (Some now) None None
    :: requests_of (User.id u) db.
Proof.
  intros Hrole Hlater db'. subst db'.
  unfold submit_request. rewrite Hrole. simpl.
  unfold requests_of. rewrite filter_add. simpl.
  rewrite Z.eqb_refl.
  apply sort_app_newest.
  apply Forall_forall. intros r Hr.
  apply filter_In in Hr. destruct Hr as [Hin Ht].
  apply Z.eqb_eq in Ht.
  unfold by_created_desc. simpl.
  destruct (MR.created_at r) as [t|] eqn:E; [|reflexivity].
  apply Z.leb_gt. exact (Hlater r t Hin Ht E).
Qed.

Lemma submit_request_tops_my_requests_witness :
  let db' := snd (submit_request "104" "HVAC" "High" "Issue with ac in unit."
                    (Some alice) 9000 sample_db) in
  requests_of (User.id alice) db'
  = MR.mk (next_id sample_db) (User.id alice) "104" "HVAC" "High"
          "Issue with ac in unit." "Pending" (Some 9000) None None
    :: requests_of (User.id alice) sample_db.
Proof.
  apply (submit_request_tops_my_requests "104" "HVAC" "High"
           "Issue with ac in unit." alice 9000 sample_db).
  - reflexivity.
  - intros r t Hin _ Hc. simpl in Hin.
    destruct Hin as [<-|[<-|[<-|[]]]]; simpl in Hc;
      injection Hc as <-; lia.
Defined.

(** ** Primary keys *)

Lemma map_id_commit (req : MR.t) (db : Db) :
  map MR.id (commit req db) = map MR.id db.
Proof.
  induction db as [|x db IH]; simpl; [reflexivity|].
  destruct (MR.id x =? MR.id req) eqn:E; simpl.
  - apply Z.eqb_eq in E. now rewrite E.
  - now rewrite IH.
Qed.

Lemma map_id_update_request
    (k : Z) (st : string) (user : option User.t) (now : datetime) (db : Db) :
  map MR.id (snd (update_request k st user now db)) = map MR.id db.
Proof.
  unfold update_request.
  destruct user as [u|]; [|reflexivity].
  destruct (negb (User.role u =? "worker")%string); [reflexivity|].
  destruct (first_by_id k db); [|reflexivity].
  simpl. apply map_id_commit.
Qed.

Lemma next_id_not_in (db : Db) : ~ In (next_id db) (map MR.id db).
Proof.
  intros H. apply in_map_iff in H. destruct H as (r & Hid & Hin).
  apply id_below_next_id in Hin. lia.
Qed.

Lemma first_by_id_unique (db : Db) (r : MR.t) :
  unique_ids db -> In r db -> first_by_id (MR.id r) db = Some r.
Proof.
  unfold unique_ids, first_by_id.
  induction db as [|x db IH]; simpl; [tauto|].
  intros Hnd [->|Hin].
  - now rewrite Z.eqb_refl.
  - inversion Hnd as [|? ? Hx Hnd']; subst.
    destruct (MR.id x =? MR.id r) eqn:E; [|now apply IH].
    apply Z.eqb_eq in E. exfalso. apply Hx. rewrite E.
    now apply in_map.
Qed.

(** X4: no handler touches a primary key.  An update, by anyone and with
    any arguments, leaves the column of identifiers as it was (no row is
    created, deleted or renumbered); a submission appends at most one
    identifier, one the table did not hold; so identifiers that are unique
    stay unique, and a lookup by the identifier of a row then returns that
    row. *)
Theorem handlers_keep_unique_ids
    (k : Z) (st unit_number category urgency description : string)
    (user user' : option User.t) (now : datetime) (db : Db) :
  unique_ids db ->
  map MR.id (snd (update_request k st user now db)) = map MR.id db
  /\ unique_ids (snd (update_request k st user now db))
  /\ unique_ids (snd (submit_request unit_number category urgency description
                        user' now db))
  /\ (forall r, In r db -> first_by_id (MR.id r) db = Some r).
Proof.
  intros Hu. split; [apply map_id_update_request|].
  split; [unfold unique_ids; now rewrite map_id_update_request|].
  split; [|intros r; now apply first_by_id_unique].
  unfold submit_request.
  destruct user' as [u|]; [|exact Hu].
  destruct (negb (User.role u =? "tenant")%string); [exact Hu|].
  unfold unique_ids, add in *. simpl. rewrite map_app. simpl.
  apply NoDup_app; [exact Hu | repeat constructor; intros [] |].
  intros x Hx [<-|[]]. revert Hx. apply next_id_not_in.
Qed.

Lemma handlers_keep_unique_ids_witness :
  map MR.id (snd (update_request 2 "Completed" (Some bob) 9000 sample_db))
  = map MR.id sample_db
  /\ unique_ids (snd (update_request 2 "Completed" (Some bob) 9000 sample_db))
  /\ unique_ids (snd (submit_request "104" "HVAC" "High" "Issue with ac in unit."
                        (Some alice) 9000 sample_db))
  /\ (forall r, In r sample_db -> first_by_id (MR.id r) sample_db = Some r).
Proof.
  apply (handlers_keep_unique_ids 2 "Completed" "104" "HVAC" "High"
           "Issue with ac in unit." (Some bob) (Some alice) 9000 sample_db).
  unfold unique_ids. simpl.
  repeat constructor; simpl; intros H; intuition discriminate.
Defined.

(** ** Updates in sequence and the queue after an update *)

Lemma commit_commit (r1 r2 : MR.t) (db : Db) :
  MR.id r1 = MR.id r2 -> commit r2 (commit r1 db) = commit r2 db.
Proof.
  intros Hid. induction db as [|x db IH]; simpl; [reflexivity|].
  rewrite Hid. destruct (MR.id x =? MR.id r2) eqn:E; simpl.
  - now rewrite <- Hid, Z.eqb_refl.
  - now rewrite E, IH.
Qed.

(** X5: two updates of one request by workers compose as follows.  The
    request ends with the second status and the second worker; its
    [resolved_at] is the second time if the second status is Completed,
    else the first time if the first status was Completed, else what it was
    at the start.  Unless only the first status is Completed, the table is
    the one the second update alone would have produced. *)
Theorem update_request_twice
    (k : Z) (st1 st2 : string) (u1 u2 : User.t) (t1 t2 : datetime)
    (db : Db) (r : MR.t) :
  User.role u1 = "worker" -> User.role u2 = "worker" ->
  first_by_id k db = Some r ->
  let db1 := snd (update_request k st1 (Some u1) t1 db) in
  let db2 := snd (update_request k st2 (Some u2) t2 db1) in
  (exists r2,
     first_by_id k db2 = Some r2
     /\ MR.status r2 = st2
     /\ MR.assigned_worker_id r2 = Some (User.id u2)
     /\ MR.resolved_at r2
        = (if (st2 =? "Completed")%string then Some t2
           else if (st1 =? "Completed")%string then Some t1
           else MR.resolved_at r))
  /\ (st1 <> "Completed" \/ st2 = "Completed" ->
      db2 = snd (update_request k st2 (Some u2) t2 db)).
Proof.
  intros H1 H2 Hfind db1 db2.
  pose proof (update_request_row_after k st1 u1 t1 db r H1 Hfind) as Hrow1.
  fold db1 in Hrow1.
  pose proof (update_request_row_after k st2 u2 t2 db1 _ H2 Hrow1) as Hrow2.
  fold db2 in Hrow2.
  split.
  - eexists. split; [exact Hrow2|]. simpl. repeat split.
  - intros Hcase. subst db2 db1.
    rewrite (update_request_by_worker k st2 u2 t2 _ _ H2 Hrow1).
    rewrite (update_request_by_worker k st1 u1 t1 db r H1 Hfind).
    rewrite (update_request_by_worker k st2 u2 t2 db r H2 Hfind).
    simpl. rewrite commit_commit by reflexivity.
    f_equal. unfold updated. simpl. f_equal.
    destruct (st2 =? "Completed")%string eqn:E2; [reflexivity|].
    destruct (st1 =? "Completed")%string eqn:E1; [|reflexivity].
    apply String.eqb_eq in E1. apply String.eqb_neq in E2.
    destruct Hcase; congruence.
Qed.

Lemma update_request_twice_witness :
  let db1 := snd (update_request 1 "In Progress" (Some bob) 8000 sample_db) in
  let db2 := snd (update_request 1 "Completed" (Some bob) 9000 db1) in
  (exists r2,
     first_by_id 1 db2 = Some r2
     /\ MR.status r2 = "Completed"
     /\ MR.assigned_worker_id r2 = Some (User.id bob)
     /\ MR.resolved_at r2
        = (if ("Completed" =? "Completed")%string then Some 9000
           else if ("In Progress" =? "Completed")%string then Some 8000
           else MR.resolved_at leaking_sink))
  /\ ("In Progress" <> "Completed" \/ "Completed" = "Completed" ->
      db2 = snd (update_request 1 "Completed" (Some bob) 9000 sample_db)).
Proof.
  apply (update_request_twice 1 "In Progress" "Completed" bob bob 8000 9000
           sample_db leaking_sink); reflexivity.
Defined.

Lemma first_by_id_In (k : Z) (db : Db) (r : MR.t) :
  first_by_id k db = Some r -> In r db.
Proof.
  unfold first_by_id. intros H. now apply find_some in H.
Qed.

Lemma In_queue_requests (db : Db) (r : MR.t) :
  In r (queue_requests db) <-> In r db /\ is_open r = true.
Proof.
  unfold queue_requests, by_urgency.
  pose proof (sort_perm (fun r => urgency_order (MR.urgency r))
                (filter is_open db)) as Hperm.
  rewrite <- filter_In. split; intros H.
  - now apply (Permutation_in _ Hperm).
  - now apply (Permutation_in _ (Permutation_sym Hperm)).
Qed.

(** X6: after a worker's update of an existing request, the worker queue
    holds the updated request whenever the new status is anything but
    Completed; when the new status is Completed and identifiers are unique,
    the queue holds no request with that identifier any more. *)
Theorem update_request_then_queue
    (k : Z) (st : string) (u : User.t) (now : datetime) (db : Db) (r : MR.t) :
  User.role u = "worker" -> first_by_id k db = Some r ->
  let db' := snd (update_request k st (Some u) now db) in
  (st <> "Completed" ->
   exists r', first_by_id k db' = Some r' /\ MR.status r' = st
              /\ In r' (queue_requests db'))
  /\ (st = "Completed" -> unique_ids db ->
      forall x, In x (queue_requests db') -> MR.id x <> k).
Proof.
  intros Hrole Hfind db'.
  pose proof (update_request_row_after k st u now db r Hrole Hfind) as Hrow.
  fold db' in Hrow. split.
  - intros Hst. eexists. split; [exact Hrow|]. split; [reflexivity|].
    apply In_queue_requests. split; [exact (first_by_id_In _ _ _ Hrow)|].
    apply is_open_iff. exact Hst.
  - intros Hst Hu x Hx Hid.
    apply In_queue_requests in Hx. destruct Hx as [Hin Hopen].
    assert (unique_ids db') as Hu'
      by (unfold unique_ids, db'; now rewrite map_id_update_request).
    pose proof (first_by_id_unique db' x Hu' Hin) as Hx.
    rewrite Hid, Hrow in Hx. injection Hx as <-.
    apply is_open_iff in Hopen. now apply Hopen.
Qed.

Lemma update_request_then_queue_witness :
  let db' := snd (update_request 1 "In Progress" (Some bob) 9000 sample_db) in
  ("In Progress" <> "Completed" ->
   exists r', first_by_id 1 db' = Some r' /\ MR.status r' = "In Progress"
              /\ In r' (queue_requests db'))
  /\ ("In Progress" = "Completed" -> unique_ids sample_db ->
      forall x, In x (queue_requests db') -> MR.id x <> 1).
Proof.
  apply (update_request_then_queue 1 "In Progress" bob 9000 sample_db
           leaking_sink); reflexivity.
Defined.

(** X7: a request submitted by a tenant joins the worker queue behind the
    open requests of its own urgency rank: the queue afterwards holds the
    new request besides the requests it held, and within each rank the
    order is the old one with the new request, if of that rank, last. *)
Theorem submit_request_joins_queue
    (unit_number category urgency description : string)
    (u : User.t) (now : datetime) (db : Db) :
  User.role u = "tenant" ->
  let new_req := MR.mk (next_id db) (User.id u) unit_number category urgency
                   description "Pending" (Some now) None None in
  let db' := snd (submit_request unit_number category urgency description
                    (Some u) now db) in
  Permutation (queue_requests db') (new_req :: queue_requests db)
  /\ forall k,
       of_rank k (queue_requests db')
       = (of_rank k (queue_requests db)
          ++ (if urgency_order urgency =? k then [new_req] else []))%list.
Proof.
  intros Hrole new_req db'. subst db'.
  unfold submit_request. rewrite Hrole. simpl. fold new_req.
  unfold queue_requests, by_urgency.
  rewrite filter_add.
  assert (is_open new_req = true) as -> by reflexivity.
  split.
  - rewrite (sort_perm (fun r => urgency_order (MR.urgency r))).
    rewrite (sort_perm (fun r => urgency_order (MR.urgency r))).
    rewrite Permutation_app_comm. reflexivity.
  - intros k. unfold of_rank.
    rewrite !(sort_stable (fun r => urgency_order (MR.urgency r))).
    rewrite filter_app. reflexivity.
Qed.

Lemma submit_request_joins_queue_witness :
  let new_req := MR.mk (next_id sample_db) (User.id alice) "104" "HVAC" "High"
                   "Issue with ac in unit." "Pending" (Some 9000) None None in
  let db' := snd (submit_request "104" "HVAC" "High" "Issue with ac in unit."
                    (Some alice) 9000 sample_db) in
  Permutation (queue_requests db') (new_req :: queue_requests sample_db)
  /\ forall k,
       of_rank k (queue_requests db')
       = (of_rank k (queue_requests sample_db)
          ++ (if urgency_order "High" =? k then [new_req] else []))%list.
Proof.
  apply (submit_request_joins_queue "104" "HVAC" "High"
           "Issue with ac in unit." alice 9000 sample_db).
  reflexivity.
Defined.

(** ** The dashboard against the queue, updates and submissions *)

Lemma urgency_order_zero (s : string) :
  (urgency_order s =? 0) = (s =? "Emergency")%string.
Proof.
  unfold urgency_order.
  destruct (s =? "Emergency")%string; [reflexivity|].
  destruct (s =? "High")%string; [reflexivity|].
  destruct (s =? "Medium")%string; [reflexivity|].
  destruct (s =? "Low")%string; reflexivity.
Qed.

Lemma urgency_order_nonneg (s : string) : 0 <= urgency_order s.
Proof.
  unfold urgency_order.
  destruct (s =? "Emergency")%string; [lia|].
  destruct (s =? "High")%string; [lia|].
  destruct (s =? "Medium")%string; [lia|].
  destruct (s =? "Low")%string; lia.
Qed.

Lemma filter_filter_and {A : Type} (p q : A -> bool) (l : list A) :
  filter p (filter q l) = filter (fun x => p x && q x) l.
Proof.
  induction l as [|x t IH]; simpl; [reflexivity|].
  destruct (q x); simpl; rewrite ?andb_true_r, ?andb_false_r;
    [destruct (p x)|]; now rewrite IH.
Qed.

Lemma rank_zero_prefix (l : list MR.t) :
  StronglySorted
    (fun a b => urgency_order (MR.urgency a) <= urgency_order (MR.urgency b)) l ->
  firstn (List.length (of_rank 0 l)) l = of_rank 0 l.
Proof.
  unfold of_rank.
  induction 1 as [|x t Ht IH Hx]; simpl; [reflexivity|].
  destruct (urgency_order (MR.urgency x) =? 0) eqn:E; simpl.
  - now rewrite IH.
  - apply Z.eqb_neq in E.
    pose proof (urgency_order_nonneg (MR.urgency x)) as Hn.
    assert (filter (fun r => urgency_order (MR.urgency r) =? 0) t = []) as ->;
      [|reflexivity].
    clear IH Ht. induction t as [|y t IH]; simpl; [reflexivity|].
    inversion Hx as [|? ? Hy Ht]; subst.
    assert ((urgency_order (MR.urgency y) =? 0) = false) as ->
      by (apply Z.eqb_neq; lia).
    now apply IH.
Qed.

(** X8: the dashboard and the worker queue agree.  The open count is the
    length of the queue, the emergency count is the number of queued
    requests of rank 0, and these emergencies are exactly the first
    entries of the queue. *)
Theorem dashboard_agrees_with_queue (db : Db) :
  open_requests db = len (queue_requests db)
  /\ emergency_count db = len (of_rank 0 (queue_requests db))
  /\ firstn (Z.to_nat (emergency_count db)) (queue_requests db)
     = of_rank 0 (queue_requests db).
Proof.
  assert (emergency_count db = len (of_rank 0 (queue_requests db))) as He.
  { unfold emergency_count, queue_requests, by_urgency, of_rank.
    rewrite (sort_stable (fun r => urgency_order (MR.urgency r))).
    rewrite filter_filter_and. f_equal.
    apply filter_ext. intros r. unfold is_emergency.
    now rewrite urgency_order_zero. }
  split; [|split; [exact He|]].
  - unfold open_requests, queue_requests, by_urgency, len. f_equal.
    symmetry. apply Permutation_length.
    apply (sort_perm (fun r => urgency_order (MR.urgency r))).
  - rewrite He. unfold len. rewrite Nat2Z.id.
    apply rank_zero_prefix.
    unfold queue_requests, by_urgency.
    apply (sort_sorted (fun r => urgency_order (MR.urgency r))).
Qed.

Lemma count_if_commit (p : MR.t -> bool) (r r' : MR.t) (db : Db) :
  first_by_id (MR.id r') db = Some r ->
  count_if p (commit r' db)
  = count_if p db - (if p r then 1 else 0) + (if p r' then 1 else 0).
Proof.
  unfold first_by_id.
  induction db as [|x db IH]; simpl; [discriminate|].
  destruct (MR.id x =? MR.id r') eqn:E; simpl; intros H.
  - injection H as ->. lia.
  - rewrite (IH H). lia.
Qed.

(** X9: a worker's update of an existing request moves the dashboard's
    counts by that one request: it leaves the open count if it was open
    and joins it unless the new status is Completed, and the other way
    round for the completed count; so completing an open request takes one
    from the open count and gives one to the completed count. *)
Theorem update_request_moves_counts
    (k : Z) (st : string) (u : User.t) (now : datetime) (db : Db) (r : MR.t) :
  User.role u = "worker" -> first_by_id k db = Some r ->
  let db' := snd (update_request k st (Some u) now db) in
  open_requests db'
  = open_requests db - (if is_open r then 1 else 0)
    + (if (st =? "Completed")%string then 0 else 1)
  /\ completed_count db'
     = completed_count db - (if is_completed r then 1 else 0)
       + (if (st =? "Completed")%string then 1 else 0)
  /\ (MR.status r <> "Completed" -> st = "Completed" ->
      open_requests db' = open_requests db - 1
      /\ completed_count db' = completed_count db + 1).
Proof.
  intros Hrole Hfind db'. subst db'.
  rewrite (update_request_by_worker k st u now db r Hrole Hfind). simpl.
  unfold open_requests, completed_count. rewrite !len_filter_count_if.
  assert (first_by_id (MR.id (updated r st (User.id u) now)) db = Some r) as Hf
    by (simpl; now rewrite (first_by_id_id k db r Hfind)).
  rewrite !(count_if_commit _ r _ db Hf).
  assert (is_open (updated r st (User.id u) now)
          = negb (st =? "Completed")%string) as -> by reflexivity.
  assert (is_completed (updated r st (User.id u) now)
          = (st =? "Completed")%string) as -> by reflexivity.
  split; [|split].
  - now destruct (st =? "Completed")%string.
  - reflexivity.
  - intros Hopen Hst. apply String.eqb_eq in Hst. rewrite Hst.
    apply is_open_iff in Hopen. rewrite Hopen.
    unfold is_open in Hopen. apply negb_true_iff in Hopen.
    unfold is_completed. rewrite Hopen. simpl. lia.
Qed.

Lemma update_request_moves_counts_witness :
  let db' := snd (update_request 1 "Completed" (Some bob) 9000 sample_db) in
  open_requests db'
  = open_requests sample_db - (if is_open leaking_sink then 1 else 0)
    + (if ("Completed" =? "Completed")%string then 0 else 1)
  /\ completed_count db'
     = completed_count sample_db - (if is_completed leaking_sink then 1 else 0)
       + (if ("Completed" =? "Completed")%string then 1 else 0)
  /\ (MR.status leaking_sink <> "Completed" -> "Completed" = "Completed" ->
      open_requests db' = open_requests sample_db - 1
      /\ completed_count db' = completed_count sample_db + 1).
Proof.
  apply (update_request_moves_counts 1 "Completed" bob 9000 sample_db
           leaking_sink); reflexivity.
Defined.

Lemma len_app {A : Type} (l1 l2 : list A) : len (l1 ++ l2) = len l1 + len l2.
Proof. unfold len. rewrite length_app. lia. Qed.

(** X10: a tenant's submission shows on the dashboard as one more open
    request, and one more emergency exactly when its urgency is Emergency;
    the completed count and the average resolution time stay as they
    were. *)
Theorem submit_request_on_dashboard
    (unit_number category urgency description : string)
    (u : User.t) (now : datetime) (db : Db) :
  User.role u = "tenant" ->
  let db' := snd (submit_request unit_number category urgency description
                    (Some u) now db) in
  open_requests db' = open_requests db + 1
  /\ completed_count db' = completed_count db
  /\ emergency_count db'
     = emergency_count db + (if (urgency =? "Emergency")%string then 1 else 0)
  /\ avg_resolution_time db' = avg_resolution_time db.
Proof.
  intros Hrole db'. subst db'.
  unfold submit_request. rewrite Hrole. simpl.
  unfold open_requests, completed_count, emergency_count.
  rewrite !avg_resolution_time_mean. unfold resolved_requests.
  rewrite !filter_add. simpl.
  unfold is_emergency. simpl.
  destruct (urgency =? "Emergency")%string; simpl;
    rewrite ?len_app, ?app_nil_r; repeat split; unfold len; simpl; lia.
Qed.

Lemma submit_request_on_dashboard_witness :
  let db' := snd (submit_request "104" "HVAC" "Emergency" "Issue with ac in unit."
                    (Some alice) 9000 sample_db) in
  open_requests db' = open_requests sample_db + 1
  /\ completed_count db' = completed_count sample_db
  /\ emergency_count db'
     = emergency_count sample_db
       + (if ("Emergency" =? "Emergency")%string then 1 else 0)
  /\ avg_resolution_time db' = avg_resolution_time sample_db.
Proof.
  apply (submit_request_on_dashboard "104" "HVAC" "Emergency"
           "Issue with ac in unit." alice 9000 sample_db).
  reflexivity.
Defined.

(** ** Sessions *)

Lemma find_user_by_id (users : Users) (u : User.t) :
  NoDup (map User.id users) -> In u users ->
  find (fun x => User.id x =? User.id u) users = Some u.
Proof.
  induction users as [|x users IH]; simpl; [tauto|].
  intros Hnd [->|Hin].
  - now rewrite Z.eqb_refl.
  - inversion Hnd as [|? ? Hx Hnd']; subst.
    destruct (User.id x =? User.id u) eqn:E; [|now apply IH].
    apply Z.eqb_eq in E. exfalso. apply Hx. rewrite E. now apply in_map.
Qed.

(** X11: signing in and being recognised.  With unique, non-zero user
    identifiers, a login that answers with the redirect to the index
    leaves a session from which [get_current_user] recovers a user of the
    table who bears the submitted name and whose stored hash verifies the
    submitted password; any other login answers with the login page and
    its error, and leaves the session as it was. *)
Theorem login_then_current_user
    (checkpw : string -> string -> bool)
    (username password : string) (session : Session) (users : Users) :
  unique_user_ids users ->
  (fst (login checkpw username password session users) = Redirect "/" 303 ->
   exists u,
     get_current_user (snd (login checkpw username password session users)) users
     = Some u
     /\ In u users /\ User.username u = username
     /\ checkpw password (User.password_hash u) = true)
  /\ (fst (login checkpw username password session users) <> Redirect "/" 303 ->
      login checkpw username password session users
      = (Render "login.html" (LoginForm (Some "Invalid credentials")), session)).
Proof.
  intros [Hnd Hz]. unfold login.
  destruct (find (fun u => (User.username u =? username)%string) users)
    as [u|] eqn:Ef.
  - apply find_some in Ef. destruct Ef as [Hin Hname].
    apply String.eqb_eq in Hname.
    destruct (checkpw password (User.password_hash u)) eqn:Ec; simpl.
    + split; [|intros H; now elim H]. intros _. exists u.
      assert ((User.id u =? 0) = false) as ->.
      { apply Z.eqb_neq. intros H0. apply Hz. rewrite <- H0. now apply in_map. }
      split; [now apply find_user_by_id|]. now repeat split.
    + split; [discriminate | reflexivity].
  - simpl. split; [discriminate | reflexivity].
Qed.

Lemma login_then_current_user_witness :
  (fst (login sample_checkpw "worker" "password" None (users seeded))
   = Redirect "/" 303 ->
   exists u,
     get_current_user
       (snd (login sample_checkpw "worker" "password" None (users seeded)))
       (users seeded) = Some u
     /\ In u (users seeded) /\ User.username u = "worker"
     /\ sample_checkpw "password" (User.password_hash u) = true)
  /\ (fst (login sample_checkpw "worker" "password" None (users seeded))
      <> Redirect "/" 303 ->
      login sample_checkpw "worker" "password" None (users seeded)
      = (Render "login.html" (LoginForm (Some "Invalid credentials")), None)).
Proof.
  apply (login_then_current_user sample_checkpw "worker" "password" None
           (users seeded)).
  split; simpl.
  - repeat constructor; simpl; intros H; intuition discriminate.
  - intros H; intuition discriminate.
Defined.

Example login_seeded_worker :
  login sample_checkpw "worker" "password" None (users seeded)
  = (Redirect "/" 303, Some 2)
  /\ fst (login sample_checkpw "worker" "letmein" None (users seeded))
     = Render "login.html" (LoginForm (Some "Invalid credentials")).
Proof. split; reflexivity. Qed.

(** X12: the index never sends a signed-in user to a page that turns the
    user away.  A tenant is sent to the request list, a worker to the
    queue, a manager to the dashboard, and the handler of that page
    renders it for this user; a user of any other role is sent to the
    logout, which empties the session, after which the index leads to the
    login. *)
Theorem index_lands_on_own_page (u : User.t) (db : Db) (session : Session) :
  (User.role u = "tenant"
   /\ index (Some u) = Redirect "/tenant/requests" 307
   /\ exists l, fst (my_requests (Some u) db)
                = Render "my_requests.html" (MyRequests u l))
  \/ (User.role u = "worker"
      /\ index (Some u) = Redirect "/worker/queue" 307
      /\ exists q, fst (work_queue (Some u) db)
                   = Ok (TemplateResponse "work_queue.html" (QueueContext u q)))
  \/ (User.role u = "manager"
      /\ index (Some u) = Redirect "/manager/dashboard" 307
      /\ exists o avg e c recent,
           fst (dashboard (Some u) db)
           = Ok (TemplateResponse "dashboard.html"
                   (DashboardContext u o avg e c recent)))
  \/ (~ In (User.role u) ["tenant"; "worker"; "manager"]
      /\ index (Some u) = Redirect "/logout" 307
      /\ logout session = (Redirect "/login" 307, None)
      /\ forall users, index (get_current_user (snd (logout session)) users)
                       = Redirect "/login" 307).
Proof.
  unfold index, my_requests, work_queue, dashboard.
  destruct (User.role u =? "tenant")%string eqn:Et.
  { left. apply String.eqb_eq in Et. rewrite Et. simpl. eauto. }
  destruct (User.role u =? "worker")%string eqn:Ew.
  { right; left. apply String.eqb_eq in Ew. rewrite Ew. simpl. eauto. }
  destruct (User.role u =? "manager")%string eqn:Em.
  { right; right; left. apply String.eqb_eq in Em. rewrite Em. simpl.
    repeat split. do 5 eexists. reflexivity. }
  right; right; right.
  apply String.eqb_neq in Et, Ew, Em.
  split; [simpl; intuition congruence|].
  repeat split.
Qed.

(** ** Role guards *)

Lemma require_role_fails (role : string) (user : option User.t) :
  fails_with Forbidden (require_role role user)
  <-> match user with
      | None => True
      | Some u => User.role u <> role
      end.
Proof.
  unfold require_role. destruct user as [u|]; simpl; [|tauto].
  destruct (User.role u =? role)%string eqn:E; simpl.
  - apply String.eqb_eq in E. split; [tauto | congruence].
  - apply String.eqb_neq in E. split; [tauto | reflexivity].
Qed.

(** X13: the inline guard of every role-scoped handler refuses exactly the
    identities [require_role] refuses, a missing one or one of another
    role: the handler then answers with the redirect to the index and
    leaves the table as it was, and answers otherwise in no other case. *)
Theorem guards_agree_with_require_role
    (user : option User.t) (db : Db) (now : datetime) (k : Z)
    (st unit_number category urgency description : string) :
  (fails_with Forbidden (require_role "tenant" user)
   <-> submit_request unit_number category urgency description user now db
       = (Ok (RedirectResponse "/" 307), db))
  /\ (fails_with Forbidden (require_role "tenant" user)
      <-> my_requests user db = (Redirect "/" 307, db))
  /\ (fails_with Forbidden (require_role "tenant" user)
      <-> submit_request_page user = Redirect "/" 307)
  /\ (fails_with Forbidden (require_role "worker" user)
      <-> work_queue user db = (Ok (RedirectResponse "/" 307), db))
  /\ (fails_with Forbidden (require_role "worker" user)
      <-> update_request k st user now db = (Ok (RedirectResponse "/" 307), db))
  /\ (fails_with Forbidden (require_role "manager" user)
      <-> dashboard user db = (Ok (RedirectResponse "/" 307), db)).
Proof.
  rewrite !require_role_fails.
  unfold submit_request, my_requests, submit_request_page, work_queue,
    update_request, dashboard.
  destruct user as [u|]; [|repeat split].
  destruct (User.role u =? "tenant")%string eqn:Et;
    destruct (User.role u =? "worker")%string eqn:Ew;
    destruct (User.role u =? "manager")%string eqn:Em;
    rewrite ?String.eqb_eq, ?String.eqb_neq in *; simpl;
    repeat split; intros; try congruence; try discriminate;
    try (destruct (first_by_id k db); discriminate).
Qed.

(** ** Startup and seeding *)

Section SeedingFacts.
Variable hashpw : string -> string -> string.
Variable gensalt : nat -> string.
Variable draw : nat -> Draw.

Let seed_tenant : User.t :=
  User.mk 1 "tenant" (hashpw "password" (gensalt 0)) "tenant".
Let seed_worker : User.t :=
  User.mk 2 "worker" (hashpw "password" (gensalt 1)) "worker".
Let seed_manager : User.t :=
  User.mk 3 "manager" (hashpw "password" (gensalt 2)) "manager".

Lemma seed_users_data :
  seed_users hashpw gensalt users_data 0 []
  = [seed_tenant; seed_worker; seed_manager].
Proof. reflexivity. Qed.

Lemma startup_event_empty (d : Database) :
  users d = [] ->
  startup_event hashpw gensalt draw d
  = mkdb [seed_tenant; seed_worker; seed_manager]
         (seed_requests draw seed_tenant seed_worker (seq 0 12) (requests d)).
Proof.
  intros H. unfold startup_event. rewrite H. reflexivity.
Qed.

Lemma unique_ids_add (r : MR.t) (db : Db) :
  unique_ids db -> MR.id r = next_id db -> unique_ids (add r db).
Proof.
  unfold unique_ids, add. intros Hu Hid. rewrite map_app. simpl.
  apply NoDup_app; [exact Hu | repeat constructor; intros [] |].
  intros x Hx [<-|[]]. rewrite Hid in Hx. revert Hx. apply next_id_not_in.
Qed.

Lemma seed_requests_rows (tenant worker : User.t) (turns : list nat) (db : Db) :
  exists rows,
    seed_requests draw tenant worker turns db = (db ++ rows)%list
    /\ List.length rows = List.length turns
    /\ Forall (fun r => exists i new_id,
                 In i turns /\ r = seed_request tenant worker new_id (draw i))
              rows
    /\ (unique_ids db -> unique_ids (db ++ rows)%list).
Proof.
  revert db. induction turns as [|i rest IH]; intros db; simpl.
  - exists []. rewrite app_nil_r. repeat split; auto.
  - destruct (IH (add (seed_request tenant worker (next_id db) (draw i)) db))
      as (rows & Heq & Hlen & Hall & Hu).
    exists (seed_request tenant worker (next_id db) (draw i) :: rows).
    unfold add in *. rewrite <- app_assoc in Heq, Hu. simpl in Heq, Hu.
    split; [exact Heq|]. split; [simpl; congruence|]. split.
    + constructor; [exists i, (next_id db); auto|].
      eapply Forall_impl; [|exact Hall].
      intros r (j & n & Hj & Hr). exists j, n. auto.
    + intros Hdb. apply Hu.
      apply (unique_ids_add _ db Hdb). reflexivity.
Qed.

Lemma choice_in (seq : list string) (i : nat) :
  (i < List.length seq)%nat -> In (choice seq i) seq.
Proof. intros H. unfold choice. now apply nth_In. Qed.

Lemma seed_request_well_formed (new_id : Z) (d : Draw) :
  in_range d ->
  well_formed [seed_tenant; seed_worker; seed_manager]
    (seed_request seed_tenant seed_worker new_id d).
Proof.
  intros (Hdays & Hhours & Hs & Hu & Hc & Hg & Hi).
  unfold well_formed, seed_request.
  cbn [MR.status MR.category MR.urgency MR.tenant_id].
  split; [now apply choice_in|]. split; [now apply choice_in|].
  split; [now apply choice_in|].
  assert (choice statuses (status_choice d) = "Pending"
          \/ choice statuses (status_choice d) = "In Progress"
          \/ choice statuses (status_choice d) = "Completed") as Hst.
  { pose proof (choice_in statuses _ Hs) as H. simpl in H. intuition. }
  unfold resolved_iff_completed, worker_iff_taken, resolved_after_created.
  cbn [MR.resolved_at MR.status MR.assigned_worker_id MR.created_at].
  split; [|split; [|split; [|split]]].
  - destruct Hst as [-> | [-> | ->]]; simpl; split; intros H;
      try discriminate; try reflexivity; now elim H.
  - destruct Hst as [-> | [-> | ->]]; simpl; split; intros H;
      try discriminate; try reflexivity; now elim H.
  - destruct Hst as [-> | [-> | ->]]; simpl; trivial. lia.
  - exists seed_tenant. simpl. auto.
  - intros w Hw. exists seed_worker.
    destruct Hst as [E | [E | E]]; rewrite E in Hw; simpl in Hw;
      try discriminate; injection Hw as <-; simpl; auto.
Qed.

(** X14: seeding happens once.  A start that finds any user leaves both
    tables as they are; a start that finds none creates users, so a second
    start, whatever it would draw, changes nothing. *)
Theorem startup_event_seeds_once
    (hashpw' : string -> string -> string) (gensalt' : nat -> string)
    (draw' : nat -> Draw) (d : Database) :
  (users d <> [] -> startup_event hashpw gensalt draw d = d)
  /\ users (startup_event hashpw gensalt draw d) <> []
  /\ startup_event hashpw' gensalt' draw' (startup_event hashpw gensalt draw d)
     = startup_event hashpw gensalt draw d.
Proof.
  destruct (users d) as [|u us] eqn:E.
  - rewrite (startup_event_empty d E). simpl.
    repeat split; [tauto | discriminate].
  - unfold startup_event. rewrite E. rewrite E.
    repeat split; discriminate.
Qed.

(** X15: what a first start seeds.  On a database without users, and with
    every draw inside the range [random] draws from, the start creates the
    three users and appends twelve requests to the table; each of them has
    a recognised status, category and urgency, a resolution time exactly
    when it is Completed and then later than its creation, a worker
    exactly when it is not Pending, the seeded tenant as its tenant and
    the seeded worker as its worker; identifiers that were unique stay
    unique. *)
Theorem startup_event_seeds_well_formed (d : Database) :
  users d = [] ->
  (forall i, (i < 12)%nat -> in_range (draw i)) ->
  let d' := startup_event hashpw gensalt draw d in
  map User.role (users d') = ["tenant"; "worker"; "manager"]
  /\ exists rows,
       requests d' = (requests d ++ rows)%list
       /\ List.length rows = 12%nat
       /\ Forall (well_formed (users d')) rows
       /\ (unique_ids (requests d) -> unique_ids (requests d')).
Proof.
  intros He Hdraw d'. subst d'.
  rewrite (startup_event_empty d He). cbn [users requests].
  split; [reflexivity|].
  destruct (seed_requests_rows seed_tenant seed_worker (seq 0 12) (requests d))
    as (rows & Heq & Hlen & Hall & Hu).
  exists rows. rewrite Heq.
  split; [reflexivity|]. split; [exact Hlen|]. split; [|exact Hu].
  eapply Forall_impl; [|exact Hall].
  intros r (i & new_id & Hi & ->).
  apply seed_request_well_formed. apply Hdraw.
  apply in_seq in Hi. lia.
Qed.
End SeedingFacts.

Lemma sample_draw_in_range (i : nat) : in_range (sample_draw i).
Proof.
  unfold in_range, sample_draw, statuses, units, categories, urgencies, items.
  cbn [randint_days randint_hours status_choice unit_choice category_choice
       urgency_choice item_choice List.length].
  pose proof (Nat.mod_upper_bound i 31 ltac:(discriminate)).
  pose proof (Nat.mod_upper_bound i 48 ltac:(discriminate)).
  pose proof (Nat.mod_upper_bound i 3 ltac:(discriminate)).
  pose proof (Nat.mod_upper_bound i 8 ltac:(discriminate)).
  pose proof (Nat.mod_upper_bound i 4 ltac:(discriminate)).
  repeat split; lia.
Qed.

Lemma startup_event_seeds_once_witness :
  (users sample_db_users <> [] ->
   startup_event sample_hashpw sample_gensalt sample_draw sample_db_users
   = sample_db_users)
  /\ users (startup_event sample_hashpw sample_gensalt sample_draw
              sample_db_users) <> []
  /\ startup_event sample_hashpw sample_gensalt sample_draw
       (startup_event sample_hashpw sample_gensalt sample_draw sample_db_users)
     = startup_event sample_hashpw sample_gensalt sample_draw sample_db_users.
Proof.
  exact (startup_event_seeds_once sample_hashpw sample_gensalt sample_draw
           sample_hashpw sample_gensalt sample_draw sample_db_users).
Defined.

Lemma startup_event_seeds_well_formed_witness :
  map User.role (users seeded) = ["tenant"; "worker"; "manager"]
  /\ exists rows,
       requests seeded = ([] ++ rows)%list
       /\ List.length rows = 12%nat
       /\ Forall (well_formed (users seeded)) rows
       /\ (unique_ids [] -> unique_ids (requests seeded)).
Proof.
  apply (startup_event_seeds_well_formed sample_hashpw sample_gensalt
           sample_draw (mkdb [] [])).
  - reflexivity.
  - intros i _. apply sample_draw_in_range.
Defined.

(** X16: the seeded accounts can sign in.  After a first start on a
    database without users, and provided [bcrypt.checkpw] accepts a
    password against the hash [bcrypt.hashpw] made of it, each of the
    names tenant, worker and manager signs in with the password
    "password": the login redirects to the index with a session from
    which [get_current_user] recovers the user of that name, whose role
    is the name. *)
Theorem seeded_accounts_sign_in
    (hashpw : string -> string -> string) (gensalt : nat -> string)
    (draw : nat -> Draw) (checkpw : string -> string -> bool)
    (d : Database) (session : Session) (name : string) :
  users d = [] ->
  (forall i, checkpw "password" (hashpw "password" (gensalt i)) = true) ->
  In name ["tenant"; "worker"; "manager"] ->
  let us := users (startup_event hashpw gensalt draw d) in
  exists u,
    login checkpw name "password" session us = (Redirect "/" 303, Some (User.id u))
    /\ get_current_user (Some (User.id u)) us = Some u
    /\ User.username u = name /\ User.role u = name.
Proof.
  intros He Hcheck Hname us. subst us.
  rewrite (startup_event_empty hashpw gensalt draw d He). cbn [users].
  simpl in Hname.
  destruct Hname as [<- | [<- | [<- | []]]].
  - exists (User.mk 1 "tenant" (hashpw "password" (gensalt 0%nat)) "tenant").
    unfold login; simpl; rewrite Hcheck; simpl; repeat split.
  - exists (User.mk 2 "worker" (hashpw "password" (gensalt 1%nat)) "worker").
    unfold login; simpl; rewrite Hcheck; simpl; repeat split.
  - exists (User.mk 3 "manager" (hashpw "password" (gensalt 2%nat)) "manager").
    unfold login; simpl; rewrite Hcheck; simpl; repeat split.
Qed.

Lemma seeded_accounts_sign_in_witness :
  let us := users seeded in
  exists u,
    login sample_checkpw "manager" "password" None us
    = (Redirect "/" 303, Some (User.id u))
    /\ get_current_user (Some (User.id u)) us = Some u
    /\ User.username u = "manager" /\ User.role u = "manager".
Proof.
  apply (seeded_accounts_sign_in sample_hashpw sample_gensalt sample_draw
           sample_checkpw (mkdb [] []) None "manager").
  - reflexivity.
  - intros i. destruct i as [|[|i]]; reflexivity.
  - simpl. auto.
Defined.

Example seeded_requests_sample :
  map (fun r => (MR.id r, MR.status r, MR.resolved_at r, MR.assigned_worker_id r))
      (firstn 3 (requests seeded))
  = [ (1, "Pending", None, None);
      (2, "In Progress", None, Some 2);
      (3, "Completed", Some (3000000000002 - 2 * 86400000000 + 3 * 3600000000),
       Some 2) ].
Proof. reflexivity. Qed.

(** X17: whom a session stands for.  [get_current_user] only ever returns
    a user of the table whose identifier is the non-zero one kept in the
    session; it returns nobody exactly when the session is empty, keeps 0,
    or keeps an identifier no user carries (a user since removed). *)
Theorem get_current_user_sound (session : Session) (users : Users) :
  (forall u, get_current_user session users = Some u ->
             session = Some (User.id u) /\ User.id u <> 0 /\ In u users)
  /\ (get_current_user session users = None
      <-> session = None \/ session = Some 0
          \/ exists k, session = Some k /\ ~ In k (map User.id users)).
Proof.
  unfold get_current_user. destruct session as [k|].
  - destruct (k =? 0) eqn:E0.
    + apply Z.eqb_eq in E0. subst k.
      split; [discriminate|]. split; auto.
    + apply Z.eqb_neq in E0.
      destruct (find (fun u => User.id u =? k) users) as [u|] eqn:Ef.
      * apply find_some in Ef. destruct Ef as [Hin Hid].
        apply Z.eqb_eq in Hid. split.
        -- intros u' H. injection H as <-. subst k. auto.
        -- split; [discriminate|].
           intros [H|[H|(k' & H & Hn)]]; try congruence.
           injection H as <-. exfalso. apply Hn. rewrite <- Hid.
           now apply in_map.
      * split; [discriminate|]. split; [|reflexivity]. intros _.
        right; right. exists k. split; [reflexivity|].
        intros Hin. apply in_map_iff in Hin. destruct Hin as (u & Hid & Hin).
        apply (find_none _ _ Ef) in Hin. rewrite Hid, Z.eqb_refl in Hin.
        discriminate.
  - split; [discriminate|]. split; auto.
Qed.

(** ** Well-formed tables *)

Lemma Forall_commit (P : MR.t -> Prop) (r' : MR.t) (db : Db) :
  Forall P db -> P r' -> Forall P (commit r' db).
Proof.
  intros Hdb Hr. induction Hdb as [|x db Hx Hdb IH]; simpl; [constructor|].
  destruct (MR.id x =? MR.id r'); constructor; auto.
Qed.

(** X18: moving a request forward keeps the table well formed.  When
    every row satisfies the data model's conditions, the acting worker is
    a user of the table, the request is not yet Completed, the new status
    is In Progress or Completed and the update comes after the request's
    creation, every row satisfies them after the update as well. *)
Theorem update_request_forward_well_formed
    (us : Users) (k : Z) (st : string) (u : User.t) (now : datetime)
    (db : Db) (r : MR.t) :
  User.role u = "worker" -> In u us ->
  first_by_id k db = Some r ->
  Forall (well_formed us) db ->
  MR.status r <> "Completed" ->
  st = "In Progress" \/ st = "Completed" ->
  (forall created, MR.created_at r = Some created -> created < now) ->
  Forall (well_formed us) (snd (update_request k st (Some u) now db)).
Proof.
  intros Hrole Hu Hfind Hdb Hopen Hst Hnow.
  rewrite (update_request_by_worker k st u now db r Hrole Hfind). simpl.
  apply Forall_commit; [exact Hdb|].
  rewrite Forall_forall in Hdb.
  destruct (Hdb r (first_by_id_In k db r Hfind))
    as (_ & Hc & Hg & Hres & _ & Hafter & Ht & _).
  unfold well_formed, updated, resolved_iff_completed, worker_iff_taken,
    resolved_after_created in *.
  cbn [MR.status MR.category MR.urgency MR.resolved_at MR.created_at
       MR.assigned_worker_id MR.tenant_id].
  assert (MR.resolved_at r = None) as Hnone.
  { destruct (MR.resolved_at r) as [t|]; [|reflexivity].
    exfalso. apply Hopen. apply Hres. discriminate. }
  split; [destruct Hst as [-> | ->]; simpl; auto|].
  split; [exact Hc|]. split; [exact Hg|].
  split; [|split; [|split; [|split; [exact Ht|]]]].
  - destruct Hst as [-> | ->]; simpl; rewrite ?Hnone;
      split; intros H; try discriminate; try reflexivity; now elim H.
  - destruct Hst as [-> | ->]; split; discriminate.
  - destruct Hst as [-> | ->]; simpl; rewrite ?Hnone;
      destruct (MR.created_at r) as [c|]; trivial.
    now apply Hnow.
  - intros w Hw. injection Hw as <-. exists u. auto.
Qed.

Lemma update_request_forward_well_formed_witness :
  Forall (well_formed sample_users)
    (snd (update_request 1 "Completed" (Some bob) 9000 sample_db)).
Proof.
  assert (forall r, In r sample_db -> well_formed sample_users r) as Hwf.
  { intros r Hin. simpl in Hin.
    unfold well_formed, resolved_iff_completed, worker_iff_taken,
      resolved_after_created.
    destruct Hin as [<- | [<- | [<- | []]]]; simpl;
      (repeat split; try lia; try (intros H; try discriminate; now elim H);
       try (exists alice; simpl; now auto);
       try (intros w Hw; try discriminate; injection Hw as <-;
            exists bob; simpl; now auto);
       simpl; auto 6). }
  apply (update_request_forward_well_formed sample_users 1 "Completed" bob 9000
           sample_db leaking_sink).
  - reflexivity.
  - simpl. auto.
  - reflexivity.
  - apply Forall_forall. exact Hwf.
  - discriminate.
  - right. reflexivity.
  - intros c Hc. simpl in Hc. injection Hc as <-. lia.
Defined.

(** X19: a submission with a recognised category and urgency keeps the
    table well formed: when every row satisfies the data model's
    conditions and the tenant is a user of the table, every row satisfies
    them after the submission, the new one included. *)
Theorem submit_request_well_formed
    (us : Users) (unit_number category urgency description : string)
    (u : User.t) (now : datetime) (db : Db) :
  User.role u = "tenant" -> In u us ->
  In category categories -> In urgency urgencies ->
  Forall (well_formed us) db ->
  Forall (well_formed us)
    (snd (submit_request unit_number category urgency description
            (Some u) now db)).
Proof.
  intros Hrole Hu Hc Hg Hdb.
  unfold submit_request. rewrite Hrole. simpl. unfold add.
  apply Forall_app. split; [exact Hdb|].
  constructor; [|constructor].
  unfold well_formed, resolved_iff_completed, worker_iff_taken,
    resolved_after_created. simpl.
  split; [auto|]. split; [exact Hc|]. split; [exact Hg|].
  split; [split; intros H; [now elim H | discriminate]|].
  split; [split; reflexivity|]. split; [trivial|].
  split; [exists u; auto | discriminate].
Qed.

Lemma submit_request_well_formed_witness :
  Forall (well_formed sample_users)
    (snd (submit_request "104" "HVAC" "High" "Issue with ac in unit."
            (Some alice) 9000 [])).
Proof.
  apply (submit_request_well_formed sample_users "104" "HVAC" "High"
           "Issue with ac in unit." alice 9000 []).
  - reflexivity.
  - simpl. auto.
  - simpl. auto.
  - simpl. auto.
  - constructor.
Defined.
